(** * olwidget.admin: GeoModelAdmin

    A shallow embedding of [django-olwidget/olwidget/admin.py] and the
    properties of its three methods: [get_form], [get_changelist_map] and
    [changelist_view].

    Python objects that the code mutates in place (GEOS geometries, whose
    [transform] reprojects the receiver) live in a store and are referred to
    by address; exceptions are an explicit outcome. *)

From Stdlib Require Import ZArith Lia.
From stdpp Require Import base tactics option list functions gmap strings.

Open Scope string_scope.
Open Scope list_scope.
Open Scope Z_scope.

Set Warnings "-register-all".

(** ** Exceptions and outcomes *)

Inductive exn : Type :=
| AttributeError
| TypeError
| KeyError
| GEOSException
| GDALException
| IncorrectLookupParameters
| PermissionDenied
| ValidationError
| OtherError (name : string).

Inductive outcome (A : Type) : Type :=
| Return (a : A)
| Raise (e : exn).
Arguments Return {A} a.
Arguments Raise {A} e.

#[global] Instance outcome_ret : MRet outcome := fun A a => Return a.
#[global] Instance outcome_bind : MBind outcome := fun A B f m =>
  match m with
  | Return a => f a
  | Raise e => Raise e
  end.
#[global] Instance outcome_fmap : FMap outcome := fun A B f m =>
  match m with
  | Return a => Return (f a)
  | Raise e => Raise e
  end.

(** [bool(l)] for a list. *)
Definition nonempty {A} (l : list A) : bool :=
  match l with [] => false | _ :: _ => true end.

(** ** GEOS geometries *)

Definition loc := nat.

(** The classes of geometries. *)
Inductive geom_class : Type :=
| Point
| LineString
| LinearRing
| Polygon
| MultiPoint
| MultiLineString
| MultiPolygon
| Collection.

(** [GeometryCollection._allowed]: what a collection takes as a member;
    a [GeometryCollection] proper is not among them. *)
Definition allowed (c : geom_class) : bool :=
  match c with
  | Collection => false
  | _ => true
  end.

Section GeoModelAdmin.
(** A coordinate tuple, and the reprojection of one tuple from a source
    to a target spatial reference identifier (done by GDAL/OGR). *)
Context {coord : Type}.
Variable reproject : Z -> Z -> coord -> coord.

(** The exception, if any, that GDAL/OGR raises when it is asked to
    transform these coordinates from the first SRID to the second (an SRID
    it does not know, a coordinate outside the projection, no GDAL). *)
Variable ogr_error : Z -> Z -> list coord -> option exn.

(** A geometry is kept as its SRID, its coordinate sequence and its
    class.  [len] of an empty geometry is 0, which makes it falsy. *)
Record geometry : Type := Geometry {
  srid : option Z;
  coords : list coord;
  geom_type : geom_class
}.

(** The store of geometry objects. *)
Definition heap : Type := loc -> geometry.

(** What [GEOSGeometry.transform(ct)] leaves in the receiver, when it does
    not raise: nothing changes when the SRID is [ct] already; a geometry
    without an SRID (or with a negative one) is refused, and so is one
    that OGR fails on. *)
Definition transformed (ct : Z) (g : geometry) : option geometry :=
  match srid g with
  | Some s =>
      if s =? ct then Some g
      else if s <? 0 then None
      else match ogr_error s ct (coords g) with
           | Some _ => None
           | None => Some {| srid := Some ct;
                             coords := reproject s ct <$> coords g;
                             geom_type := geom_type g |}
           end
  | None => None
  end.

(** The exception of [GEOSGeometry.transform(ct)] when it refuses. *)
Definition refusal (ct : Z) (g : geometry) : exn :=
  match srid g with
  | Some s =>
      if s <? 0 then GEOSException
      else match ogr_error s ct (coords g) with
           | Some e => e
           | None => GEOSException
           end
  | None => GEOSException
  end.

(** [geom.transform(ct)] on the object at address [a]: in place. *)
Definition GEOSGeometry_transform (ct : Z) (a : loc) (h : heap)
  : outcome heap :=
  match srid (h a) with
  | Some s =>
      if s =? ct then Return h
      else if s <? 0 then Raise GEOSException
      else match ogr_error s ct (coords (h a)) with
           | Some e => Raise e
           | None =>
               Return (<[a := {| srid := Some ct;
                                 coords := reproject s ct <$> coords (h a);
                                 geom_type := geom_type (h a) |}]> h)
           end
  | None => Raise GEOSException
  end.

(** ** Attribute values of model instances *)

Inductive value : Type :=
| VNone
| VStr (s : string)
| VGeom (a : loc)
| VCallable (body : outcome value).

(** [bool(v)] *)
Definition truthy (h : heap) (v : value) : bool :=
  match v with
  | VNone => false
  | VStr s => negb (String.eqb s "")
  | VGeom a => negb (Nat.eqb (length (coords (h a))) 0)
  | VCallable _ => true
  end.

Definition callable (v : value) : bool :=
  match v with
  | VCallable _ => true
  | _ => false
  end.

(** [v()].  A callable stands for the outcome of the one call that
    [get_changelist_map] makes of it for an object: a method that reads or
    changes the geometry objects between two calls is not described. *)
Definition call (v : value) : outcome value :=
  match v with
  | VCallable body => body
  | _ => Raise TypeError
  end.

(** A model instance: its attributes and [force_text(obj)]. *)
Record model_obj : Type := ModelObj {
  attrs : gmap string value;
  text : string
}.

Definition getattr (obj : model_obj) (field : string) : outcome value :=
  match attrs obj !! field with
  | Some v => Return v
  | None => Raise AttributeError
  end.

(** [geom.transform(ct)] for an arbitrary collected value: only geometry
    objects have the method. *)
Definition transform (ct : Z) (v : value) (h : heap) : outcome heap :=
  match v with
  | VGeom a => GEOSGeometry_transform ct a h
  | _ => Raise AttributeError
  end.

(** [GeometryCollection(geoms, srid=...)]: the members are clones of the
    geometries given, taken when the collection is built; a value that is
    no geometry of an allowed class is a [TypeError]. *)
Record GeometryCollection : Type := MkGeometryCollection {
  gc_geoms : list geometry;
  gc_srid : option Z
}.

Definition clone (h : heap) (v : value) : outcome geometry :=
  match v with
  | VGeom a =>
      if allowed (geom_type (h a)) then Return (h a) else Raise TypeError
  | _ => Raise TypeError
  end.

Fixpoint clone_all (h : heap) (geoms : list value) : outcome (list geometry) :=
  match geoms with
  | [] => Return []
  | v :: rest =>
      g ← clone h v;
      gs ← clone_all h rest;
      Return (g :: gs)
  end.

Definition new_GeometryCollection (geoms : list value) (srid : Z) (h : heap)
  : outcome GeometryCollection :=
  members ← clone_all h geoms;
  Return {| gc_geoms := members; gc_srid := Some srid |}.

(** ** Requests, change lists and the admin object *)

(** [QueryDict]: keys with their lists of values. *)
Definition QueryDict : Type := list (string * list string).

Definition has_key (k : string) (q : QueryDict) : bool :=
  existsb (String.eqb k) (q.*1).

Definition getlist (k : string) (q : QueryDict) : list string :=
  match find (fun kv => String.eqb k (fst kv)) q with
  | Some kv => snd kv
  | None => []
  end.

Record HttpRequest : Type := MkRequest {
  path : string;
  full_path : string;
  method : string;
  GET : QueryDict;
  POST : QueryDict;
  FILES : QueryDict;
  current_app : option string
}.

(** [int(DEFAULT_PROJ)]; the constant is defined in [olwidget.utils]. *)
Variable DEFAULT_PROJ : Z.

(** Map options are passed through untouched. *)
Context {map_options : Type}.

(** An [InfoMap] is kept as the arguments it was built from. *)
Record InfoMap : Type := MkInfoMap {
  info : list (GeometryCollection * string);
  im_options : option map_options
}.

(** [django.forms.Media] with its [+], and what [olwidget.widgets.InfoMap]
    (not part of this module) answers to [map_.media] and [bool(map_)]. *)
Context {Media : Type}.
Variable media_add : Media -> Media -> Media.
Variable InfoMap_media : InfoMap -> Media.
Variable InfoMap_bool : InfoMap -> bool.

(** [model._meta] *)
Record Options : Type := MkOptions {
  app_label : string;
  model_name : string;
  verbose_name : string;
  verbose_name_plural : string
}.

(** A form of the change list's formset, and the formset. *)
Record ChangeForm : Type := MkChangeForm {
  has_changed : bool;
  form_prefix : string
}.

Record FormSet : Type := MkFormSet {
  forms : list ChangeForm;
  is_valid : bool;
  formset_media : Media
}.

Record ChangeList : Type := MkChangeList {
  get_queryset : option HttpRequest -> outcome (list model_obj);
  url_for_result : model_obj -> string;
  result_list : list model_obj;
  result_count : nat;
  cl_list_editable : list string;
  title : string;
  is_popup : bool;
  to_field : option string;
  cl_opts : Options;
  formset : option FormSet
}.

(** ** Responses and the template context *)

Record ActionForm : Type := MkActionForm {
  choices : list (string * string)
}.

(** The values found in a template context. *)
Inductive cval : Type :=
| CNone
| CStr (s : string)
| CBool (b : bool)
| CMedia (m : Media)
| CChangeList (cl : ChangeList)
| COptions (o : Options)
| CActionForm (f : ActionForm)
| CInfoMap (m : InfoMap).

Inductive HttpResponse : Type :=
| SimpleTemplateResponse (template : string) (context : gmap string cval)
| HttpResponseRedirect (url : string)
| TemplateResponse (request : HttpRequest) (template : list string)
    (context : gmap string cval)
| PlainResponse (content : string).

(** ** The state a request is served in

    The geometry store, and whatever else the framework keeps (database,
    message storage, admin log), which this module only reaches through
    the hooks of [ModelAdmin]. *)
Context {W : Type}.

Record state : Type := MkState {
  geoms : heap;
  world : W
}.

Definition M (A : Type) : Type := state -> outcome (A * state).

#[local] Instance M_ret : MRet M := fun A a s => Return (a, s).
#[local] Instance M_bind : MBind M := fun A B f m s =>
  match m s with
  | Return (a, s') => f a s'
  | Raise e => Raise e
  end.

Definition raise {A} (e : exn) : M A := fun _ => Raise e.

Inductive message_level : Type := WARNING | SUCCESS.

(** The arguments of the [ChangeList] constructor ([self.model] and [self]
    are the admin object's own). *)
Record ChangeListArgs : Type := MkChangeListArgs {
  cla_request : HttpRequest;
  cla_list_display : list string;
  cla_list_display_links : list string;
  cla_list_filter : list string;
  cla_date_hierarchy : option string;
  cla_search_fields : list string;
  cla_list_select_related : bool;
  cla_list_per_page : nat;
  cla_list_max_show_all : nat;
  cla_list_editable : list string
}.

(** ** Form classes

    [olwidget.forms] is not part of this module: its three functions are
    taken as they are called.  [apply_maps_to_modelform_fields] rearranges
    the fields it is given and returns the key map; [fix_initial_data] and
    [fix_cleaned_data] rewrite the dictionary they are given. *)
Context {Data Keymap Fields Maps FieldClass InitArgs GetFormArgs FormState
         : Type}.
Variable apply_maps_to_modelform_fields :
  Fields -> option Maps -> option map_options -> string ->
  option FieldClass -> outcome (Fields * Keymap).
Variable fix_initial_data : Data -> Keymap -> outcome Data.
Variable fix_cleaned_data : Data -> Keymap -> outcome Data.

(** A form instance: the two dictionaries the patched methods touch, what
    [self.initial_data_keymap] evaluates to, and the rest of its state. *)
Record ModelFormInstance : Type := MkModelFormInstance {
  initial : Data;
  cleaned_data : option Data;
  self_initial_data_keymap : option Keymap;
  form_state : FormState
}.

(** A form class.  [__init__] fills in a new instance of the class, whose
    attribute [initial_data_keymap] it is given; [clean] returns a value
    next to the instance it leaves. *)
Record ModelFormClass : Type := MkModelFormClass {
  form_init : option Keymap -> InitArgs -> outcome ModelFormInstance;
  form_clean : ModelFormInstance -> outcome (ModelFormInstance * option Data);
  base_fields : Fields;
  initial_data_keymap : option Keymap
}.

(** Calling the class: a new instance, initialised. *)
Definition instantiate (ModelForm : ModelFormClass) (args : InitArgs)
  : outcome ModelFormInstance :=
  form_init ModelForm (initial_data_keymap ModelForm) args.

(** Reading an attribute that may be missing. *)
Definition attribute {A} (o : option A) : outcome A :=
  match o with
  | Some a => Return a
  | None => Raise AttributeError
  end.

(** [self]: the class attributes of [GeoModelAdmin] and the parts of
    [ModelAdmin] that [changelist_view] calls. *)
Record GeoModelAdmin : Type := MkGeoModelAdmin {
  options : option map_options;
  map_template : string;
  list_map : option (list string);
  list_map_options : option map_options;
  maps : option Maps;
  change_list_template : option string;
  default_field_class : option FieldClass;
  ModelAdmin_get_form : GetFormArgs -> outcome ModelFormClass;
  model_meta : Options;
  admin_site_name : string;
  each_context : HttpRequest -> gmap string cval;
  has_change_permission : HttpRequest -> bool;
  has_add_permission : HttpRequest -> bool;
  get_list_display : HttpRequest -> list string;
  get_list_display_links : HttpRequest -> list string -> list string;
  get_list_filter : HttpRequest -> list string;
  get_search_fields : HttpRequest -> list string;
  get_actions : HttpRequest -> list string;
  get_changelist : HttpRequest -> ChangeListArgs -> M ChangeList;
  date_hierarchy : option string;
  list_select_related : bool;
  list_per_page : nat;
  list_max_show_all : nat;
  list_editable : list string;
  response_action : HttpRequest -> list model_obj -> M (option HttpResponse);
  message_user : HttpRequest -> string -> message_level -> M unit;
  get_changelist_formset :
    HttpRequest -> option (QueryDict * QueryDict) -> list model_obj -> FormSet;
  save_form : HttpRequest -> ChangeForm -> M model_obj;
  save_model : HttpRequest -> model_obj -> ChangeForm -> M unit;
  save_related : HttpRequest -> ChangeForm -> M unit;
  construct_change_message : HttpRequest -> ChangeForm -> string;
  log_change : HttpRequest -> model_obj -> string -> M unit;
  media : Media;
  get_action_choices : HttpRequest -> list (string * string);
  actions_on_top : bool;
  actions_on_bottom : bool;
  actions_selection_counter : bool;
  get_preserved_filters : HttpRequest -> string
}.

(** ** get_form *)

Definition set_initial (self : ModelFormInstance) (d : Data)
  : ModelFormInstance :=
  {| initial := d;
     cleaned_data := cleaned_data self;
     self_initial_data_keymap := self_initial_data_keymap self;
     form_state := form_state self |}.

Definition set_cleaned_data (self : ModelFormInstance) (d : Data)
  : ModelFormInstance :=
  {| initial := initial self;
     cleaned_data := Some d;
     self_initial_data_keymap := self_initial_data_keymap self;
     form_state := form_state self |}.

Definition new_init
    (orig_init : option Keymap -> InitArgs -> outcome ModelFormInstance)
    (cls_keymap : option Keymap) (args : InitArgs)
  : outcome ModelFormInstance :=
  self ← orig_init cls_keymap args;
  keymap ← attribute (self_initial_data_keymap self);
  d ← fix_initial_data (initial self) keymap;
  Return (set_initial self d).

Definition new_clean
    (orig_clean : ModelFormInstance ->
                  outcome (ModelFormInstance * option Data))
    (self : ModelFormInstance) : outcome (ModelFormInstance * Data) :=
  '(self, _) ← orig_clean self;
  cleaned ← attribute (cleaned_data self);
  keymap ← attribute (self_initial_data_keymap self);
  d ← fix_cleaned_data cleaned keymap;
  Return (set_cleaned_data self d, d).

Definition get_form (self : GeoModelAdmin) (args : GetFormArgs)
  : outcome ModelFormClass :=
  ModelForm ← ModelAdmin_get_form self args;
  let orig_init := form_init ModelForm in
  let orig_clean := form_clean ModelForm in
  '(fields, keymap) ← apply_maps_to_modelform_fields
                         (base_fields ModelForm) (maps self) (options self)
                         (map_template self) (default_field_class self);
  Return {| form_init := new_init orig_init;
            form_clean := fun self =>
              '(self, d) ← new_clean orig_clean self; Return (self, Some d);
            base_fields := fields;
            initial_data_keymap := Some keymap |}.

(** ** get_changelist_map *)

(** [for field in self.list_map: ...], appending to [geoms]. *)
Fixpoint collect_geoms (h : heap) (obj : model_obj) (fields : list string)
    (geoms : list value) : outcome (list value) :=
  match fields with
  | [] => Return geoms
  | field :: fields' =>
      geom ← getattr obj field;
      if truthy h geom then
        geom' ← (if callable geom then call geom else Return geom);
        collect_geoms h obj fields' (geoms ++ [geom'])
      else collect_geoms h obj fields' geoms
  end.

(** [for geom in geoms: geom.transform(int(DEFAULT_PROJ))] *)
Fixpoint transform_geoms (geoms : list value) (h : heap) : outcome heap :=
  match geoms with
  | [] => Return h
  | geom :: geoms' =>
      h' ← transform DEFAULT_PROJ geom h;
      transform_geoms geoms' h'
  end.

(** ["<a href='%s'>%s</a>" % (url, text)] *)
Definition link (url text : string) : string :=
  "<a href='" +:+ url +:+ "'>" +:+ text +:+ "</a>".

(** The body of [for obj in qs]. *)
Definition info_step (list_map : list string) (cl : ChangeList)
    (obj : model_obj) (info : list (GeometryCollection * string)) (h : heap)
  : outcome (list (GeometryCollection * string) * heap) :=
  geoms ← collect_geoms h obj list_map [];
  h' ← transform_geoms geoms h;
  match geoms with
  | [] => Return (info, h')
  | _ :: _ =>
      gc ← new_GeometryCollection geoms DEFAULT_PROJ h';
      Return (info ++ [(gc, link (url_for_result cl obj) (text obj))], h')
  end.

Fixpoint info_loop (list_map : list string) (cl : ChangeList)
    (qs : list model_obj) (info : list (GeometryCollection * string))
    (h : heap) : outcome (list (GeometryCollection * string) * heap) :=
  match qs with
  | [] => Return (info, h)
  | obj :: qs' =>
      '(info', h') ← info_step list_map cl obj info h;
      info_loop list_map cl qs' info' h'
  end.

Definition get_changelist_map (self : GeoModelAdmin) (cl : ChangeList)
    (request : option HttpRequest) (h : heap)
  : outcome (option InfoMap * heap) :=
  match list_map self with
  | Some ((_ :: _) as fields) =>
      qs ← match request with
           | Some r => get_queryset cl (Some r)
           | None => get_queryset cl None
           end;
      '(info, h') ← info_loop fields cl qs [] h;
      Return (Some {| info := info; im_options := list_map_options self |}, h')
  | _ => Return (None, h)
  end.

(** ** changelist_view

    The body of the method; the [csrf_protect_m] decorator, which the
    parent's method carries as well, is left out. *)

(** Constants and functions of the framework that the view uses:
    [django.contrib.admin.views.main.ERROR_FLAG],
    [helpers.ACTION_CHECKBOX_NAME], the translation functions and
    [fmt % {...}] on a translated format string. *)
Variable ERROR_FLAG : string.
Variable ACTION_CHECKBOX_NAME : string.
Variable gettext : string -> string.
Variable ungettext : string -> string -> nat -> string.

Inductive fmt_arg : Type := FInt (n : nat) | FStr (s : string).
Variable format : string -> list (string * fmt_arg) -> string.

Definition lift {A} (m : outcome A) : M A := fun s =>
  match m with
  | Return a => Return (a, s)
  | Raise e => Raise e
  end.

(** [get_changelist_map] run on the geometry store of the state. *)
Definition run_get_changelist_map (self : GeoModelAdmin) (cl : ChangeList)
    (request : option HttpRequest) : M (option InfoMap) := fun s =>
  match get_changelist_map self cl request (geoms s) with
  | Return (map_, h') => Return (map_, {| geoms := h'; world := world s |})
  | Raise e => Raise e
  end.

(** A block of the view either returns a response or falls through. *)
Definition or_return {A} (m : M (HttpResponse + A))
    (k : A -> M HttpResponse) : M HttpResponse :=
  r ← m;
  match r with
  | inl response => mret response
  | inr a => k a
  end.

(** The arguments the [ChangeList] is constructed with. *)
Definition changelist_args (self : GeoModelAdmin) (request : HttpRequest)
  : ChangeListArgs :=
  let list_display := get_list_display self request in
  let list_display_links :=
    get_list_display_links self request list_display in
  let list_filter := get_list_filter self request in
  let search_fields := get_search_fields self request in
  let actions := get_actions self request in
  let list_display :=
    if nonempty actions then "action_checkbox" :: list_display
    else list_display in
  {| cla_request := request;
     cla_list_display := list_display;
     cla_list_display_links := list_display_links;
     cla_list_filter := list_filter;
     cla_date_hierarchy := date_hierarchy self;
     cla_search_fields := search_fields;
     cla_list_select_related := list_select_related self;
     cla_list_per_page := list_per_page self;
     cla_list_max_show_all := list_max_show_all self;
     cla_list_editable := list_editable self |}.

(** From the permission check to the construction of the [ChangeList],
    with its [try ... except IncorrectLookupParameters]. *)
Definition construct_changelist (self : GeoModelAdmin) (request : HttpRequest)
  : M (HttpResponse + ChangeList) :=
  if negb (has_change_permission self request) then raise PermissionDenied
  else
    let ChangeList := get_changelist self request in
    fun s =>
      match ChangeList (changelist_args self request) s with
      | Return (cl, s') => Return (inr cl, s')
      | Raise IncorrectLookupParameters =>
          if has_key ERROR_FLAG (GET request) then
            Return (inl (SimpleTemplateResponse "admin/invalid_setup.html"
                           {["title" := CStr (gettext "Database error")]}), s)
          else
            Return (inl (HttpResponseRedirect
                           (path request +:+ "?" +:+ ERROR_FLAG +:+ "=1")), s)
      | Raise e => Raise e
      end.

Definition is_POST (request : HttpRequest) : bool :=
  String.eqb (method request) "POST".

(** [self.response_action(request, queryset=cl.get_queryset(request))] *)
Definition run_response_action (self : GeoModelAdmin) (request : HttpRequest)
    (cl : ChangeList) : M (option HttpResponse) :=
  qs ← lift (get_queryset cl (Some request));
  response_action self request qs.

(** Actions with no confirmation; the result is [action_failed]. *)
Definition actions_no_confirmation (self : GeoModelAdmin)
    (request : HttpRequest) (cl : ChangeList) (action_failed : bool)
  : M (HttpResponse + bool) :=
  let actions := get_actions self request in
  let selected := getlist ACTION_CHECKBOX_NAME (POST request) in
  if nonempty actions && is_POST request && has_key "index" (POST request)
     && negb (has_key "_save" (POST request)) then
    if nonempty selected then
      response ← run_response_action self request cl;
      match response with
      | Some r => mret (inl r)
      | None => mret (inr true)
      end
    else
      let msg := gettext ("Items must be selected in order to perform "
                          +:+ "actions on them. No items have been changed.") in
      _ ← message_user self request msg WARNING;
      mret (inr true)
  else mret (inr action_failed).

(** Actions with confirmation. *)
Definition actions_with_confirmation (self : GeoModelAdmin)
    (request : HttpRequest) (cl : ChangeList) (action_failed : bool)
  : M (HttpResponse + bool) :=
  let actions := get_actions self request in
  let selected := getlist ACTION_CHECKBOX_NAME (POST request) in
  if nonempty actions && is_POST request
     && has_key ACTION_CHECKBOX_NAME (POST request)
     && negb (has_key "index" (POST request))
     && negb (has_key "_save" (POST request)) then
    if nonempty selected then
      response ← run_response_action self request cl;
      match response with
      | Some r => mret (inl r)
      | None => mret (inr true)
      end
    else mret (inr action_failed)
  else mret (inr action_failed).

(** [for form in formset.forms: ...], with [changecount] and the last
    saved [obj]. *)
Fixpoint save_changed_forms (self : GeoModelAdmin) (request : HttpRequest)
    (fs : list ChangeForm) (changecount : nat) (last : option model_obj)
  : M (nat * option model_obj) :=
  match fs with
  | [] => mret (changecount, last)
  | form :: fs' =>
      if has_changed form then
        obj ← save_form self request form;
        _ ← save_model self request obj form;
        _ ← save_related self request form;
        let change_msg := construct_change_message self request form in
        _ ← log_change self request obj change_msg;
        save_changed_forms self request fs' (S changecount) (Some obj)
      else save_changed_forms self request fs' changecount last
  end.

Definition set_formset (cl : ChangeList) (fs : option FormSet) : ChangeList :=
  {| get_queryset := get_queryset cl;
     url_for_result := url_for_result cl;
     result_list := result_list cl;
     result_count := result_count cl;
     cl_list_editable := cl_list_editable cl;
     title := title cl;
     is_popup := is_popup cl;
     to_field := to_field cl;
     cl_opts := cl_opts cl;
     formset := fs |}.

(** The bulk-edit block; falls through with [cl] carrying its formset. *)
Definition bulk_edit (self : GeoModelAdmin) (request : HttpRequest)
    (cl : ChangeList) (action_failed : bool) : M (HttpResponse + ChangeList) :=
  let opts := model_meta self in
  let cl := set_formset cl None in
  if is_POST request && nonempty (cl_list_editable cl)
     && has_key "_save" (POST request) && negb action_failed then
    let FormSet := get_changelist_formset self request in
    let formset :=
      FormSet (Some (POST request, FILES request)) (result_list cl) in
    let cl := set_formset cl (Some formset) in
    if is_valid formset then
      '(changecount, obj) ← save_changed_forms self request (forms formset)
                               0%nat None;
      _ ← match changecount, obj with
          | S _, Some obj =>
              let name :=
                if Nat.eqb changecount 1 then verbose_name opts
                else verbose_name_plural opts in
              let msg :=
                format
                  (ungettext "%(count)s %(name)s was changed successfully."
                             "%(count)s %(name)s were changed successfully."
                             changecount)
                  [("count", FInt changecount); ("name", FStr name);
                   ("obj", FStr (text obj))] in
              message_user self request msg SUCCESS
          | _, _ => mret tt
          end;
      mret (inl (HttpResponseRedirect (full_path request)))
    else mret (inr cl)
  else if nonempty (cl_list_editable cl) then
    let FormSet := get_changelist_formset self request in
    let formset := FormSet None (result_list cl) in
    mret (inr (set_formset cl (Some formset)))
  else mret (inr cl).

Definition opt_str (o : option string) : cval :=
  match o with Some s => CStr s | None => CNone end.

(** The context up to and including [context.update(extra_context or {})];
    [cl] is the change list as the bulk-edit block left it. *)
Definition changelist_context (self : GeoModelAdmin) (request : HttpRequest)
    (cl : ChangeList) (extra_context : option (gmap string cval))
  : gmap string cval :=
  let opts := model_meta self in
  let actions := get_actions self request in
  let media :=
    match formset cl with
    | Some formset => media_add (media self) (formset_media formset)
    | None => media self
    end in
  let action_form :=
    if nonempty actions then
      CActionForm {| choices := get_action_choices self request |}
    else CNone in
  let selection_note_all :=
    ungettext "%(total_count)s selected" "All %(total_count)s selected"
      (result_count cl) in
  let context : gmap string cval :=
    <["module_name" := CStr (verbose_name_plural opts)]> (
    <["selection_note" :=
        CStr (format (gettext "0 of %(cnt)s selected")
                [("cnt", FInt (length (result_list cl)))])]> (
    <["selection_note_all" :=
        CStr (format selection_note_all
                [("total_count", FInt (result_count cl))])]> (
    <["title" := CStr (title cl)]> (
    <["is_popup" := CBool (is_popup cl)]> (
    <["to_field" := opt_str (to_field cl)]> (
    <["cl" := CChangeList cl]> (
    <["media" := CMedia media]> (
    <["has_add_permission" := CBool (has_add_permission self request)]> (
    <["opts" := COptions (cl_opts cl)]> (
    <["action_form" := action_form]> (
    <["actions_on_top" := CBool (actions_on_top self)]> (
    <["actions_on_bottom" := CBool (actions_on_bottom self)]> (
    <["actions_selection_counter" :=
        CBool (actions_selection_counter self)]> (
    <["preserved_filters" := CStr (get_preserved_filters self request)]> (
    each_context self request))))))))))))))) in
  match extra_context with
  | Some extra => extra ∪ context
  | None => context
  end.

(** The lines between [# MODIFICATION] and [# END MODIFICATION]. *)
Definition add_changelist_map (self : GeoModelAdmin) (cl : ChangeList)
    (context : gmap string cval) : M (gmap string cval) :=
  map_ ← run_get_changelist_map self cl None;
  match map_ with
  | Some m =>
      if InfoMap_bool m then
        match context !! "media" with
        | Some (CMedia media) =>
            mret (<["map" := CInfoMap m]> (
                  <["media" := CMedia (media_add media (InfoMap_media m))]>
                    context))
        | Some _ => raise TypeError
        | None => raise KeyError
        end
      else mret context
  | None => mret context
  end.

Definition set_current_app (request : HttpRequest) (name : string)
  : HttpRequest :=
  {| path := path request;
     full_path := full_path request;
     method := method request;
     GET := GET request;
     POST := POST request;
     FILES := FILES request;
     current_app := Some name |}.

(** [self.change_list_template or [...]] *)
Definition change_list_templates (self : GeoModelAdmin) : list string :=
  let opts := model_meta self in
  match change_list_template self with
  | Some (String c t) => [String c t]
  | _ =>
      ["admin/" +:+ app_label opts +:+ "/" +:+ model_name opts
         +:+ "/change_list.html";
       "admin/" +:+ app_label opts +:+ "/change_list.html";
       "admin/change_list.html"]
  end.

(** [TemplateResponse(request, self.change_list_template or [...], context)]
    after [request.current_app = self.admin_site.name]. *)
Definition changelist_response (self : GeoModelAdmin) (request : HttpRequest)
    (context : gmap string cval) : HttpResponse :=
  let request := set_current_app request (admin_site_name self) in
  TemplateResponse request (change_list_templates self) context.

Definition changelist_view (self : GeoModelAdmin) (request : HttpRequest)
    (extra_context : option (gmap string cval)) : M HttpResponse :=
  or_return (construct_changelist self request) (fun cl =>
  or_return (actions_no_confirmation self request cl false)
    (fun action_failed =>
  or_return (actions_with_confirmation self request cl action_failed)
    (fun action_failed =>
  or_return (bulk_edit self request cl action_failed) (fun cl =>
  let context := changelist_context self request cl extra_context in
  context ← add_changelist_map self cl context;
  mret (changelist_response self request context))))).

(** The view the method is copied from: [ModelAdmin.changelist_view], which
    is [changelist_view] without the lines marked as the modification. *)
Definition ModelAdmin_changelist_view (self : GeoModelAdmin)
    (request : HttpRequest) (extra_context : option (gmap string cval))
  : M HttpResponse :=
  or_return (construct_changelist self request) (fun cl =>
  or_return (actions_no_confirmation self request cl false)
    (fun action_failed =>
  or_return (actions_with_confirmation self request cl action_failed)
    (fun action_failed =>
  or_return (bulk_edit self request cl action_failed) (fun cl =>
  let context := changelist_context self request cl extra_context in
  mret (changelist_response self request context))))).

(** The view up to the point where the context is complete: a response
    returned early, or the change list to render. *)
Definition and_then {A B} (m : M (HttpResponse + A))
    (k : A -> M (HttpResponse + B)) : M (HttpResponse + B) :=
  r ← m;
  match r with
  | inl response => mret (inl response)
  | inr a => k a
  end.

Definition changelist_prelude (self : GeoModelAdmin) (request : HttpRequest)
  : M (HttpResponse + ChangeList) :=
  and_then (construct_changelist self request) (fun cl =>
  and_then (actions_no_confirmation self request cl false)
    (fun action_failed =>
  and_then (actions_with_confirmation self request cl action_failed)
    (fun action_failed =>
  bulk_edit self request cl action_failed))).

(** ** A store-free description of the map

    The entries of the map in terms of the store [h0] the call starts
    from: what is collected off an object, each geometry reprojected. *)

Definition reprojected (h0 : heap) (v : value) : outcome geometry :=
  match v with
  | VGeom a =>
      match transformed DEFAULT_PROJ (h0 a) with
      | Some g => Return g
      | None => Raise (refusal DEFAULT_PROJ (h0 a))
      end
  | _ => Raise AttributeError
  end.

(** The collection of geometries that are members already. *)
Definition collection_of (members : list geometry)
  : outcome GeometryCollection :=
  if forallb (fun g => allowed (geom_type g)) members then
    Return {| gc_geoms := members; gc_srid := Some DEFAULT_PROJ |}
  else Raise TypeError.

Fixpoint reprojected_all (h0 : heap) (geoms : list value)
  : outcome (list geometry) :=
  match geoms with
  | [] => Return []
  | v :: rest =>
      g ← reprojected h0 v;
      gs ← reprojected_all h0 rest;
      Return (g :: gs)
  end.

Definition entry_of (h0 : heap) (list_map : list string) (cl : ChangeList)
    (obj : model_obj) : outcome (list (GeometryCollection * string)) :=
  geoms ← collect_geoms h0 obj list_map [];
  members ← reprojected_all h0 geoms;
  match geoms with
  | [] => Return []
  | _ :: _ =>
      gc ← collection_of members;
      Return [(gc, link (url_for_result cl obj) (text obj))]
  end.

Fixpoint entries_of (h0 : heap) (list_map : list string) (cl : ChangeList)
    (qs : list model_obj) : outcome (list (GeometryCollection * string)) :=
  match qs with
  | [] => Return []
  | obj :: qs' =>
      es ← entry_of h0 list_map cl obj;
      rest ← entries_of h0 list_map cl qs';
      Return (es ++ rest)
  end.

(** [h] is [h0] with some of its geometries transformed in place. *)
Definition evolves (h0 h : heap) : Prop :=
  forall a, h a = h0 a \/ transformed DEFAULT_PROJ (h0 a) = Some (h a).

(** ** Vocabulary of the properties *)

(** The object has a listed attribute with a truthy value. *)
Definition has_geometry (h : heap) (list_map : list string)
    (obj : model_obj) : bool :=
  existsb (fun field =>
             match attrs obj !! field with
             | Some v => truthy h v
             | None => false
             end) list_map.

(** No listed geometry field of the object is set: each listed attribute
    is there and its value is falsy. *)
Definition no_geometry (h : heap) (list_map : list string)
    (obj : model_obj) : bool :=
  forallb (fun field =>
             match attrs obj !! field with
             | Some v => negb (truthy h v)
             | None => false
             end) list_map.






(** [h'] is [h] with exactly the geometries at [addrs] transformed in
    place, and every other object as it was. *)
Definition reprojects (addrs : list loc) (h h' : heap) : Prop :=
  forall a,
    (a ∈ addrs -> transformed DEFAULT_PROJ (h a) = Some (h' a))
    /\ (a ∉ addrs -> h' a = h a).

(** The label of an object's entry. *)
Definition label_of (cl : ChangeList) (obj : model_obj) : string :=
  link (url_for_result cl obj) (text obj).

(** The keys that [changelist_view] itself puts into the context. *)
Definition view_keys : list string :=
  ["module_name"; "selection_note"; "selection_note_all"; "title";
   "is_popup"; "to_field"; "cl"; "media"; "has_add_permission"; "opts";
   "action_form"; "actions_on_top"; "actions_on_bottom";
   "actions_selection_counter"; "preserved_filters"].


(** The entries that [changelist_view] itself puts into the context: the
    keyword arguments of [dict(...)]. *)
Definition view_entries (self : GeoModelAdmin) (request : HttpRequest)
    (cl : ChangeList) : list (string * cval) :=
  let opts := model_meta self in
  [("module_name", CStr (verbose_name_plural opts));
   ("selection_note",
    CStr (format (gettext "0 of %(cnt)s selected")
            [("cnt", FInt (length (result_list cl)))]));
   ("selection_note_all",
    CStr (format (ungettext "%(total_count)s selected"
                    "All %(total_count)s selected" (result_count cl))
            [("total_count", FInt (result_count cl))]));
   ("title", CStr (title cl));
   ("is_popup", CBool (is_popup cl));
   ("to_field", opt_str (to_field cl));
   ("cl", CChangeList cl);
   ("media",
    CMedia match formset cl with
           | Some formset => media_add (media self) (formset_media formset)
           | None => media self
           end);
   ("has_add_permission", CBool (has_add_permission self request));
   ("opts", COptions (cl_opts cl));
   ("action_form",
    if nonempty (get_actions self request) then
      CActionForm {| choices := get_action_choices self request |}
    else CNone);
   ("actions_on_top", CBool (actions_on_top self));
   ("actions_on_bottom", CBool (actions_on_bottom self));
   ("actions_selection_counter", CBool (actions_selection_counter self));
   ("preserved_filters", CStr (get_preserved_filters self request))].

(** ** Properties of [transform] *)

Lemma transformed_srid ct g g' :
  transformed ct g = Some g' -> srid g' = Some ct.
Proof.
  unfold transformed. destruct (srid g) as [s|] eqn:Hs; [|done].
  destruct (Z.eqb_spec s ct) as [->|Hne].
  - intros [= <-]. done.
  - destruct (s <? 0); [done|].
    destruct (ogr_error s ct (coords g)); [done|]. by intros [= <-].
Qed.

Lemma transformed_idem ct g g' :
  transformed ct g = Some g' -> transformed ct g' = Some g'.
Proof.
  intros H. apply transformed_srid in H. unfold transformed.
  by rewrite H, Z.eqb_refl.
Qed.

Lemma transformed_length ct g g' :
  transformed ct g = Some g' -> length (coords g') = length (coords g).
Proof.
  unfold transformed. destruct (srid g) as [s|]; [|done].
  destruct (s =? ct); [by intros [= <-]|].
  destruct (s <? 0); [done|].
  destruct (ogr_error s ct (coords g)); [done|].
  intros [= <-]. simpl. by rewrite length_fmap.
Qed.


Lemma GEOSGeometry_transform_spec ct a h :
  match GEOSGeometry_transform ct a h with
  | Return h' =>
      transformed ct (h a) = Some (h' a) /\ forall b, b <> a -> h' b = h b
  | Raise e => transformed ct (h a) = None /\ e = refusal ct (h a)
  end.
Proof.
  unfold GEOSGeometry_transform, transformed, refusal, heap.
  destruct (srid (h a)) as [s|]; [|done].
  destruct (s =? ct); [done|]. destruct (s <? 0); [done|].
  destruct (ogr_error s ct (coords (h a))); [done|].
  split; [by rewrite fn_lookup_insert|].
  intros b Hb. by rewrite fn_lookup_insert_ne.
Qed.

Lemma GEOSGeometry_transform_settled ct a h h' x :
  GEOSGeometry_transform ct a h = Return h' ->
  srid (h x) = Some ct -> h' x = h x.
Proof.
  intros Ht Hx. destruct (decide (x = a)) as [->|Hne].
  - unfold GEOSGeometry_transform in Ht. rewrite Hx, Z.eqb_refl in Ht.
    by injection Ht as <-.
  - pose proof (GEOSGeometry_transform_spec ct a h) as Hs.
    rewrite Ht in Hs. by apply Hs.
Qed.

(** ** The store while the map is built *)

Lemma evolves_refl h : evolves h h.
Proof. intros a. by left. Qed.

Lemma evolves_transformed h0 h a :
  evolves h0 h ->
  transformed DEFAULT_PROJ (h a) = transformed DEFAULT_PROJ (h0 a).
Proof.
  intros He. destruct (He a) as [->|Ht]; [done|].
  rewrite Ht. by eapply transformed_idem.
Qed.

Lemma evolves_refused h0 h a :
  evolves h0 h -> transformed DEFAULT_PROJ (h a) = None -> h a = h0 a.
Proof.
  intros He Hnone. destruct (He a) as [->|Ht]; [done|].
  by rewrite (transformed_idem _ _ _ Ht) in Hnone.
Qed.

Lemma evolves_step h0 h a h' :
  evolves h0 h -> GEOSGeometry_transform DEFAULT_PROJ a h = Return h' ->
  evolves h0 h'.
Proof.
  intros He Ht b.
  pose proof (GEOSGeometry_transform_spec DEFAULT_PROJ a h) as Hs.
  rewrite Ht in Hs. destruct Hs as [Ha Hother].
  destruct (decide (b = a)) as [->|Hne].
  - right. by rewrite <- (evolves_transformed h0 h a He).
  - rewrite (Hother b Hne). apply He.
Qed.

Lemma evolves_truthy h0 h v : evolves h0 h -> truthy h v = truthy h0 v.
Proof.
  intros He. destruct v as [| |a|]; simpl; try done.
  destruct (He a) as [->|Ht]; [done|].
  by rewrite (transformed_length _ _ _ Ht).
Qed.

Lemma collect_geoms_evolves h0 h obj fields :
  evolves h0 h ->
  forall geoms, collect_geoms h obj fields geoms
                = collect_geoms h0 obj fields geoms.
Proof.
  intros He. induction fields as [|f fields IH]; intros geoms; simpl; [done|].
  destruct (getattr obj f) as [v|e]; simpl; [|done].
  rewrite (evolves_truthy h0 h v He).
  destruct (truthy h0 v); [|apply IH].
  destruct (if callable v then call v else Return v); simpl; [apply IH|done].
Qed.

(** The transform loop against its store-free description: the same
    exception, or a store whose collected geometries are the reprojected
    ones. *)
Lemma transform_geoms_sim h0 geoms :
  forall h, evolves h0 h ->
  match transform_geoms geoms h with
  | Return h' =>
      evolves h0 h'
      /\ (forall x, srid (h x) = Some DEFAULT_PROJ -> h' x = h x)
      /\ exists gs, reprojected_all h0 geoms = Return gs
                    /\ clone_all h' geoms
                       = if forallb (fun g => allowed (geom_type g)) gs
                         then Return gs else Raise TypeError
  | Raise e => reprojected_all h0 geoms = Raise e
  end.
Proof.
  induction geoms as [|v geoms IH]; intros h He; simpl.
  { split; [done|]. split; [done|]. by exists []. }
  destruct v as [| |a|]; simpl; try done.
  pose proof (GEOSGeometry_transform_spec DEFAULT_PROJ a h) as Hs.
  pose proof (evolves_step h0 h a) as Hstep.
  pose proof (GEOSGeometry_transform_settled DEFAULT_PROJ a h) as Hset.
  destruct (GEOSGeometry_transform DEFAULT_PROJ a h) as [h1|e]; simpl.
  - destruct Hs as [Ha Hother].
    rewrite <- (evolves_transformed h0 h a He), Ha; simpl.
    specialize (IH h1 (Hstep h1 He eq_refl)).
    destruct (transform_geoms geoms h1) as [h'|e]; simpl.
    + destruct IH as (He' & Hstable & gs & Hgs & Hclone).
      split; [done|]. split.
      * intros x Hx. rewrite <- (Hset h1 x eq_refl Hx).
        apply Hstable. by rewrite (Hset h1 x eq_refl Hx).
      * exists (h1 a :: gs). rewrite Hgs, Hclone; simpl.
        rewrite (Hstable a); [|by eapply transformed_srid].
        destruct (allowed (geom_type (h1 a))); simpl; [|done].
        by destruct (forallb (fun g => allowed (geom_type g)) gs).
    + by rewrite IH.
  - destruct Hs as [Hnone ->].
    rewrite <- (evolves_transformed h0 h a He), Hnone; simpl.
    by rewrite (evolves_refused h0 h a He Hnone).
Qed.

Lemma info_step_sim h0 list_map cl obj info h :
  evolves h0 h ->
  match info_step list_map cl obj info h with
  | Return (info', h') =>
      evolves h0 h'
      /\ exists es, entry_of h0 list_map cl obj = Return es
                    /\ info' = info ++ es
  | Raise e => entry_of h0 list_map cl obj = Raise e
  end.
Proof.
  intros He. unfold info_step, entry_of.
  rewrite (collect_geoms_evolves h0 h obj list_map He).
  destruct (collect_geoms h0 obj list_map []) as [geoms|e]; simpl; [|done].
  pose proof (transform_geoms_sim h0 geoms h He) as Hsim.
  destruct (transform_geoms geoms h) as [h'|e]; simpl.
  - destruct Hsim as (He' & _ & gs & Hgs & Hclone). rewrite Hgs; simpl.
    destruct geoms as [|v geoms].
    + split; [done|]. exists []. by rewrite app_nil_r.
    + unfold new_GeometryCollection, collection_of. rewrite Hclone.
      destruct (forallb (fun g => allowed (geom_type g)) gs); simpl;
        [|done].
      split; [done|]. by eexists.
  - by rewrite Hsim.
Qed.

Lemma info_loop_sim h0 list_map cl qs :
  forall info h, evolves h0 h ->
  match info_loop list_map cl qs info h with
  | Return (info', h') =>
      evolves h0 h'
      /\ exists es, entries_of h0 list_map cl qs = Return es
                    /\ info' = info ++ es
  | Raise e => entries_of h0 list_map cl qs = Raise e
  end.
Proof.
  induction qs as [|obj qs IH]; intros info h He; simpl.
  { split; [done|]. exists []. by rewrite app_nil_r. }
  pose proof (info_step_sim h0 list_map cl obj info h He) as Hstep.
  destruct (info_step list_map cl obj info h) as [[info1 h1]|e]; simpl.
  - destruct Hstep as (He1 & es & Hes & ->). rewrite Hes; simpl.
    specialize (IH (info ++ es) h1 He1).
    destruct (info_loop list_map cl qs (info ++ es) h1) as [[info' h']|e];
      simpl.
    + destruct IH as (He' & rest & Hrest & ->). rewrite Hrest; simpl.
      split; [done|]. exists (es ++ rest). by rewrite app_assoc.
    + by rewrite IH.
  - by rewrite Hstep.
Qed.

Lemma get_changelist_map_sim self cl request h :
  match get_changelist_map self cl request h with
  | Return (map_, h') =>
      evolves h h'
      /\ match list_map self with
         | Some (f :: fs) =>
             exists qs es,
               get_queryset cl request = Return qs
               /\ entries_of h (f :: fs) cl qs = Return es
               /\ map_ = Some {| info := es;
                                 im_options := list_map_options self |}
         | _ => map_ = None /\ h' = h
         end
  | Raise e =>
      exists f fs, list_map self = Some (f :: fs)
        /\ (get_queryset cl request = Raise e
            \/ exists qs, get_queryset cl request = Return qs
                          /\ entries_of h (f :: fs) cl qs = Raise e)
  end.
Proof.
  unfold get_changelist_map.
  destruct (list_map self) as [[|f fs]|];
    try (split; [apply evolves_refl|done]).
  replace (match request with
           | Some r => get_queryset cl (Some r)
           | None => get_queryset cl None
           end) with (get_queryset cl request) by (by destruct request).
  destruct (get_queryset cl request) as [qs|e]; simpl.
  - pose proof (info_loop_sim h (f :: fs) cl qs [] h (evolves_refl h)) as Hs.
    destruct (info_loop (f :: fs) cl qs [] h) as [[info' h']|e]; simpl.
    + destruct Hs as (He & es & Hes & ->). split; [done|].
      exists qs, es. done.
    + exists f, fs. split; [done|]. right. by exists qs.
  - exists f, fs. split; [done|]. by left.
Qed.

(** ** Collecting the geometries of an object *)

Lemma collect_geoms_acc h obj fields :
  forall geoms,
    collect_geoms h obj fields geoms
    = (gs ← collect_geoms h obj fields []; Return (geoms ++ gs)).
Proof.
  induction fields as [|f fields IH]; intros geoms; simpl.
  { by rewrite app_nil_r. }
  destruct (getattr obj f) as [v|e]; simpl; [|done].
  destruct (truthy h v).
  - destruct (if callable v then call v else Return v) as [r|e]; simpl;
      [|done].
    rewrite (IH (geoms ++ [r])), (IH [r]).
    destruct (collect_geoms h obj fields []) as [gs|e]; simpl; [|done].
    by rewrite <- app_assoc.
  - apply IH.
Qed.

Lemma collect_geoms_app h obj pre post :
  collect_geoms h obj (pre ++ post) []
  = (before ← collect_geoms h obj pre [];
     after ← collect_geoms h obj post [];
     Return (before ++ after)).
Proof.
  revert post. induction pre as [|f pre IH]; intros post; simpl.
  { by destruct (collect_geoms h obj post []). }
  destruct (getattr obj f) as [v|e]; simpl; [|done].
  destruct (truthy h v); [|apply IH].
  destruct (if callable v then call v else Return v) as [r|e]; simpl; [|done].
  rewrite (collect_geoms_acc h obj (pre ++ post) [r]), IH.
  rewrite (collect_geoms_acc h obj pre [r]).
  destruct (collect_geoms h obj pre []) as [gs1|e]; simpl; [|done].
  by destruct (collect_geoms h obj post []).
Qed.

Lemma collect_geoms_no_geometry h list_map obj :
  no_geometry h list_map obj = true ->
  forall geoms, collect_geoms h obj list_map geoms = Return geoms.
Proof.
  induction list_map as [|f fields IH]; simpl; intros Hno geoms; [done|].
  apply andb_true_iff in Hno. destruct Hno as [Hf Hrest].
  unfold getattr. destruct (attrs obj !! f) as [v|]; [|done]. simpl.
  destruct (truthy h v); [done|]. by apply IH.
Qed.



(** ** The entries of the map *)

Lemma reprojected_all_Return h geoms gs :
  reprojected_all h geoms = Return gs ->
  exists addrs,
    geoms = VGeom <$> addrs
    /\ Forall2 (fun a g => transformed DEFAULT_PROJ (h a) = Some g) addrs gs.
Proof.
  revert gs. induction geoms as [|v geoms IH]; intros gs; simpl.
  { intros [= <-]. by exists []. }
  destruct v as [| |a|]; simpl; try done.
  destruct (transformed DEFAULT_PROJ (h a)) as [g|] eqn:Hg; simpl; [|done].
  destruct (reprojected_all h geoms) as [gs'|]; simpl; [|done].
  intros [= <-]. destruct (IH gs' eq_refl) as (addrs & -> & Hall).
  exists (a :: addrs). split; [done|]. by constructor.
Qed.






Lemma entry_of_Return h list_map cl obj es :
  entry_of h list_map cl obj = Return es ->
  Forall (fun entry =>
            exists addrs,
              collect_geoms h obj list_map [] = Return (VGeom <$> addrs)
              /\ Forall2 (fun a g => transformed DEFAULT_PROJ (h a) = Some g)
                         addrs (gc_geoms (fst entry))
              /\ gc_srid (fst entry) = Some DEFAULT_PROJ
              /\ snd entry = link (url_for_result cl obj) (text obj)) es.
Proof.
  unfold entry_of.
  destruct (collect_geoms h obj list_map []) as [geoms|] eqn:Hc; simpl;
    [|done].
  destruct (reprojected_all h geoms) as [gs|] eqn:Hgs; simpl; [|done].
  destruct (reprojected_all_Return h geoms gs Hgs) as (addrs & -> & Hall).
  destruct addrs as [|a addrs]; simpl; [intros [= <-]; by constructor|].
  unfold collection_of.
  destruct (forallb (fun g => allowed (geom_type g)) gs); simpl; [|done].
  intros [= <-].
  constructor; [|by constructor]. by exists (a :: addrs).
Qed.

Lemma entries_of_Return h list_map cl qs es :
  entries_of h list_map cl qs = Return es ->
  exists per,
    es = concat per
    /\ Forall2 (fun obj e => entry_of h list_map cl obj = Return e) qs per.
Proof.
  revert es. induction qs as [|obj qs IH]; intros es; simpl.
  { intros [= <-]. by exists []. }
  destruct (entry_of h list_map cl obj) as [e|] eqn:He; simpl; [|done].
  destruct (entries_of h list_map cl qs) as [rest|]; simpl; [|done].
  intros [= <-]. destruct (IH rest eq_refl) as (per & -> & Hall).
  exists (e :: per). split; [done|]. by constructor.
Qed.


(** ** The loop over the queryset *)

Lemma info_loop_app list_map cl qs1 qs2 :
  forall info h,
    info_loop list_map cl (qs1 ++ qs2) info h
    = (r ← info_loop list_map cl qs1 info h;
       info_loop list_map cl qs2 (fst r) (snd r)).
Proof.
  induction qs1 as [|obj qs1 IH]; intros info h; simpl; [done|].
  destruct (info_step list_map cl obj info h) as [[info1 h1]|e]; simpl;
    [apply IH|done].
Qed.

Lemma info_loop_url list_map cl cl' qs :
  url_for_result cl' = url_for_result cl ->
  forall info h,
    info_loop list_map cl' qs info h = info_loop list_map cl qs info h.
Proof.
  intros Hurl. induction qs as [|obj qs IH]; intros info h; simpl; [done|].
  unfold info_step. rewrite Hurl.
  destruct (collect_geoms h obj list_map []) as [geoms|e]; simpl; [|done].
  destruct (transform_geoms geoms h) as [h1|e]; simpl; [|done].
  destruct geoms as [|v geoms]; simpl; [apply IH|].
  destruct (new_GeometryCollection (v :: geoms) DEFAULT_PROJ h1); simpl;
    [apply IH|done].
Qed.

Lemma no_geometry_evolves h0 h list_map obj :
  evolves h0 h -> no_geometry h list_map obj = no_geometry h0 list_map obj.
Proof.
  intros He. induction list_map as [|f fields IH]; simpl; [done|].
  rewrite IH. f_equal. destruct (attrs obj !! f) as [v|]; [|done].
  by rewrite (evolves_truthy h0 h v He).
Qed.

Lemma info_step_no_geometry h list_map cl obj info :
  no_geometry h list_map obj = true ->
  info_step list_map cl obj info h = Return (info, h).
Proof.
  intros Hno. unfold info_step.
  by rewrite (collect_geoms_no_geometry h list_map obj Hno).
Qed.

(** ** Properties of [get_changelist_map] *)

(** C8: a listed attribute whose value is truthy and callable is called
    (with no arguments), and the result of the call, not the callable, is
    what is collected: at the attribute's place among the geometries
    collected from the fields before and after it. *)
Theorem collect_geoms_resolves_callable h obj pre field post v :
  getattr obj field = Return v ->
  truthy h v = true ->
  callable v = true ->
  collect_geoms h obj (pre ++ field :: post) []
  = (before ← collect_geoms h obj pre [];
     result ← call v;
     after ← collect_geoms h obj post [];
     Return (before ++ result :: after)).
Proof.
  intros Hv Htrue Hcall. rewrite collect_geoms_app.
  destruct (collect_geoms h obj pre []) as [before|e]; simpl; [|done].
  rewrite Hv; simpl. rewrite Htrue, Hcall.
  destruct (call v) as [result|e]; simpl; [|done].
  rewrite collect_geoms_acc.
  by destruct (collect_geoms h obj post []).
Qed.

(** C3: an object none of whose listed geometry fields is set gets no
    info entry: its turn in the loop leaves the entries (and the store) as
    they were, and the map is the one built without the object. *)
Theorem get_changelist_map_skips_unset self cl cl' request h fields
    qs1 obj qs2 :
  list_map self = Some fields ->
  no_geometry h fields obj = true ->
  get_queryset cl request = Return (qs1 ++ obj :: qs2) ->
  get_queryset cl' request = Return (qs1 ++ qs2) ->
  url_for_result cl' = url_for_result cl ->
  (forall info h1, evolves h h1 ->
     info_step fields cl obj info h1 = Return (info, h1))
  /\ get_changelist_map self cl request h
     = get_changelist_map self cl' request h.
Proof.
  intros Hlm Hno Hqs Hqs' Hurl.
  assert (forall info h1, evolves h h1 ->
            info_step fields cl obj info h1 = Return (info, h1)) as Hstep.
  { intros info h1 He. apply info_step_no_geometry.
    by rewrite (no_geometry_evolves h h1 fields obj He). }
  split; [done|].
  unfold get_changelist_map. rewrite Hlm.
  destruct fields as [|f fs]; [done|].
  replace (match request with
           | Some r => get_queryset cl (Some r)
           | None => get_queryset cl None
           end) with (get_queryset cl request) by (by destruct request).
  replace (match request with
           | Some r => get_queryset cl' (Some r)
           | None => get_queryset cl' None
           end) with (get_queryset cl' request) by (by destruct request).
  rewrite Hqs, Hqs'; simpl.
  rewrite (info_loop_url (f :: fs) cl cl' (qs1 ++ qs2) Hurl).
  rewrite !info_loop_app.
  pose proof (info_loop_sim h (f :: fs) cl qs1 [] h (evolves_refl h)) as Hs.
  destruct (info_loop (f :: fs) cl qs1 [] h) as [[info1 h1]|e]; simpl;
    [|done].
  destruct Hs as [He _]. by rewrite (Hstep info1 h1 He).
Qed.

(** C4: in every entry of the map the collection carries the SRID
    [int(DEFAULT_PROJ)], and its members are the geometries collected off
    one object of the queryset, each as [transform] to that SRID leaves
    it: so each member is in that same projection. *)
Theorem get_changelist_map_shared_projection self cl request h map_ :
  fst <$> get_changelist_map self cl request h = Return (Some map_) ->
  exists fields qs,
    list_map self = Some fields
    /\ get_queryset cl request = Return qs
    /\ Forall (fun entry =>
         gc_srid (fst entry) = Some DEFAULT_PROJ
         /\ Forall (fun g => srid g = Some DEFAULT_PROJ)
                   (gc_geoms (fst entry))
         /\ exists obj addrs,
              obj ∈ qs
              /\ collect_geoms h obj fields [] = Return (VGeom <$> addrs)
              /\ Forall2 (fun a g => transformed DEFAULT_PROJ (h a) = Some g)
                         addrs (gc_geoms (fst entry)))
       (info map_).
Proof.
  intros Hrun.
  pose proof (get_changelist_map_sim self cl request h) as Hs.
  destruct (get_changelist_map self cl request h) as [[m h']|]; [|done].
  injection Hrun as ->. destruct Hs as [_ Hs].
  destruct (list_map self) as [[|f fs]|]; try (by destruct Hs).
  destruct Hs as (qs & es & Hqs & Hes & [= ->]).
  exists (f :: fs), qs. split; [done|]. split; [done|]. simpl.
  destruct (entries_of_Return h (f :: fs) cl qs es Hes) as (per & -> & Hper).
  apply Forall_concat. apply Forall_forall. intros e He.
  apply list_elem_of_lookup in He as [i Hi].
  destruct (Forall2_lookup_r _ _ _ _ _ Hper Hi) as (obj & Hobj & Hentry).
  eapply Forall_impl; [apply (entry_of_Return _ _ _ _ _ Hentry)|].
  intros entry (addrs & Hc & Hall & Hsrid & _).
  split; [done|]. split.
  - clear -Hall. induction Hall as [|a g addrs gs Hg _ IH]; constructor;
      [by eapply transformed_srid|done].
  - exists obj, addrs. split; [|done].
    apply list_elem_of_lookup. by exists i.
Qed.


(** ** The blocks of [changelist_view] *)

Ltac unfold_blocks :=
  unfold or_return, and_then, mbind, M_bind, mret, M_ret.

Lemma changelist_view_cases self request extra_context s :
  changelist_view self request extra_context s
  = match changelist_prelude self request s with
    | Return (inl response, s1) => Return (response, s1)
    | Return (inr cl, s1) =>
        (context ← add_changelist_map self cl
                     (changelist_context self request cl extra_context);
         mret (changelist_response self request context)) s1
    | Raise e => Raise e
    end.
Proof.
  unfold changelist_view, changelist_prelude. unfold_blocks.
  destruct (construct_changelist self request s) as [[[r|cl] s1]|e];
    [done| |done].
  destruct (actions_no_confirmation self request cl false s1)
    as [[[r|failed] s2]|e]; [done| |done].
  destruct (actions_with_confirmation self request cl failed s2)
    as [[[r|failed'] s3]|e]; [done| |done].
  by destruct (bulk_edit self request cl failed' s3) as [[[r|cl'] s4]|e].
Qed.

Lemma ModelAdmin_changelist_view_cases self request extra_context s :
  ModelAdmin_changelist_view self request extra_context s
  = match changelist_prelude self request s with
    | Return (inl response, s1) => Return (response, s1)
    | Return (inr cl, s1) =>
        Return (changelist_response self request
                  (changelist_context self request cl extra_context), s1)
    | Raise e => Raise e
    end.
Proof.
  unfold ModelAdmin_changelist_view, changelist_prelude. unfold_blocks.
  destruct (construct_changelist self request s) as [[[r|cl] s1]|e];
    [done| |done].
  destruct (actions_no_confirmation self request cl false s1)
    as [[[r|failed] s2]|e]; [done| |done].
  destruct (actions_with_confirmation self request cl failed s2)
    as [[[r|failed'] s3]|e]; [done| |done].
  by destruct (bulk_edit self request cl failed' s3) as [[[r|cl'] s4]|e].
Qed.

(** What the view does when the construction of the change list raises. *)
Lemma construct_changelist_raise self request s e :
  has_change_permission self request = true ->
  get_changelist self request (changelist_args self request) s = Raise e ->
  construct_changelist self request s
  = match e with
    | IncorrectLookupParameters =>
        if has_key ERROR_FLAG (GET request) then
          Return (inl (SimpleTemplateResponse "admin/invalid_setup.html"
                         {["title" := CStr (gettext "Database error")]}), s)
        else
          Return (inl (HttpResponseRedirect
                         (path request +:+ "?" +:+ ERROR_FLAG +:+ "=1")), s)
    | _ => Raise e
    end.
Proof.
  intros Hperm Hraise. unfold construct_changelist.
  rewrite Hperm; simpl. rewrite Hraise. by destruct e.
Qed.

Lemma changelist_prelude_early self request s response s1 :
  construct_changelist self request s = Return (inl response, s1) ->
  changelist_prelude self request s = Return (inl response, s1).
Proof.
  intros H. unfold changelist_prelude. unfold_blocks. by rewrite H.
Qed.

Lemma changelist_prelude_raise self request s e :
  construct_changelist self request s = Raise e ->
  changelist_prelude self request s = Raise e.
Proof.
  intros H. unfold changelist_prelude. unfold_blocks. by rewrite H.
Qed.


Lemma run_get_changelist_map_unset self cl request s :
  list_map self = None \/ list_map self = Some [] ->
  run_get_changelist_map self cl request s = Return (None, s).
Proof.
  intros Hunset. unfold run_get_changelist_map, get_changelist_map.
  destruct s as [h w]. by destruct Hunset as [-> | ->].
Qed.

Lemma changelist_view_render self request extra_context s cl s1 :
  changelist_prelude self request s = Return (inr cl, s1) ->
  changelist_view self request extra_context s
  = (context ← add_changelist_map self cl
                 (changelist_context self request cl extra_context);
     mret (changelist_response self request context)) s1.
Proof. intros H. by rewrite changelist_view_cases, H. Qed.

(** ** Properties of [changelist_view] *)

(** C10: when the construction of the change list raises
    [IncorrectLookupParameters] and the error flag is among the keys of
    [request.GET] already, the view returns the "Database error" page
    (template [admin/invalid_setup.html]) and no redirect. *)
Theorem changelist_view_database_error self request extra_context s :
  has_change_permission self request = true ->
  get_changelist self request (changelist_args self request) s
    = Raise IncorrectLookupParameters ->
  has_key ERROR_FLAG (GET request) = true ->
  changelist_view self request extra_context s
  = Return (SimpleTemplateResponse "admin/invalid_setup.html"
              {["title" := CStr (gettext "Database error")]}, s).
Proof.
  intros Hperm Hraise Hflag. rewrite changelist_view_cases.
  rewrite (changelist_prelude_early self request s
             (SimpleTemplateResponse "admin/invalid_setup.html"
                {["title" := CStr (gettext "Database error")]}) s); [done|].
  rewrite (construct_changelist_raise self request s _ Hperm Hraise).
  by rewrite Hflag.
Qed.

(** C2 (amended): of the exceptions that the construction of the change
    list raises, only [IncorrectLookupParameters] is handled: the view
    then redirects to [request.path] with the error flag in the query
    string, unless the flag is in [request.GET] already, in which case it
    returns the error page; any other exception propagates. *)
Theorem changelist_view_lookup_error self request extra_context s e :
  has_change_permission self request = true ->
  get_changelist self request (changelist_args self request) s = Raise e ->
  changelist_view self request extra_context s
  = match e with
    | IncorrectLookupParameters =>
        if has_key ERROR_FLAG (GET request) then
          Return (SimpleTemplateResponse "admin/invalid_setup.html"
                    {["title" := CStr (gettext "Database error")]}, s)
        else
          Return (HttpResponseRedirect
                    (path request +:+ "?" +:+ ERROR_FLAG +:+ "=1"), s)
    | _ => Raise e
    end.
Proof.
  intros Hperm Hraise. rewrite changelist_view_cases.
  pose proof (construct_changelist_raise self request s e Hperm Hraise)
    as Hc.
  destruct e;
    try (by rewrite (changelist_prelude_raise self request s _ Hc)).
  destruct (has_key ERROR_FLAG (GET request));
    by rewrite (changelist_prelude_early self request s _ s Hc).
Qed.

(** The context always has its [media] entry. *)
Lemma changelist_context_media self request cl extra_context :
  is_Some (changelist_context self request cl extra_context !! "media").
Proof.
  unfold changelist_context.
  match goal with
  | |- context [match extra_context with Some _ => _ | None => ?c end] =>
      assert (is_Some (c !! "media")) as [v Hv]
  end.
  { rewrite !lookup_insert_ne by done. rewrite lookup_insert_eq. by eexists. }
  destruct extra_context as [extra|]; [|by exists v].
  rewrite lookup_union, Hv. by destruct (extra !! "media"); eexists.
Qed.

(** C7: when the view gets to render the change list, what it returns is
    the template response for the request (with [current_app] set) and the
    change list templates, and the context handed to the template is the
    one built from the change list, with the key [map] holding the
    [InfoMap] and [media] augmented with the map's media when
    [get_changelist_map] returns a truthy map, and with nothing added
    otherwise; with [list_map] not set, [get_changelist_map] returns
    [None].  (With a truthy map and a [media] entry that is no [Media], the
    view raises and no context is handed over.) *)
Theorem changelist_view_map_context self request extra_context s cl s1 :
  changelist_prelude self request s = Return (inr cl, s1) ->
  let base := changelist_context self request cl extra_context in
  let render context :=
    TemplateResponse (set_current_app request (admin_site_name self))
      (change_list_templates self) context in
  (list_map self = None \/ list_map self = Some [] ->
   run_get_changelist_map self cl None s1 = Return (None, s1))
  /\ match run_get_changelist_map self cl None s1 with
     | Return (Some m, s2) =>
         if InfoMap_bool m then
           match base !! "media" with
           | Some (CMedia media) =>
               let context :=
                 <["map" := CInfoMap m]> (
                 <["media" := CMedia (media_add media (InfoMap_media m))]>
                   base) in
               changelist_view self request extra_context s
               = Return (render context, s2)
               /\ context !! "map" = Some (CInfoMap m)
               /\ context !! "media"
                  = Some (CMedia (media_add media (InfoMap_media m)))
               /\ forall key, key <> "map" -> key <> "media" ->
                    context !! key = base !! key
           | _ => changelist_view self request extra_context s
                  = Raise TypeError
           end
         else
           changelist_view self request extra_context s
           = Return (render base, s2)
     | Return (None, s2) =>
         changelist_view self request extra_context s
         = Return (render base, s2)
     | Raise e => changelist_view self request extra_context s = Raise e
     end.
Proof.
  intros Hpre base render. split; [apply run_get_changelist_map_unset|].
  rewrite (changelist_view_render self request extra_context s cl s1 Hpre).
  fold base. unfold add_changelist_map, changelist_response. unfold_blocks.
  destruct (run_get_changelist_map self cl None s1) as [[[m|] s2]|e];
    [|done|done].
  destruct (InfoMap_bool m); [|done].
  destruct (changelist_context_media self request cl extra_context)
    as [v Hv].
  fold base in Hv. rewrite Hv. destruct v as [| | |media| | | |]; try done.
  split; [done|].
  split; [by rewrite lookup_insert_eq|]. split.
  - rewrite lookup_insert_ne; [|done]. by rewrite lookup_insert_eq.
  - intros key Hk1 Hk2. by rewrite !lookup_insert_ne.
Qed.


(** ** Properties of [get_form] *)

(** C6: the class that [get_form] returns is the generated one with
    [__init__] and [clean] replaced and the fields rearranged: the new
    [__init__] runs the original one and then [fix_initial_data] on the
    form's initial data with its [initial_data_keymap]; the new [clean]
    runs the original one and then [fix_cleaned_data] on the form's
    cleaned data; [initial_data_keymap] is what
    [apply_maps_to_modelform_fields] returns for the class's base fields, so
    that is the key map a new instance's initial data is fixed with. *)
Theorem get_form_patches self args ModelForm fields keymap :
  ModelAdmin_get_form self args = Return ModelForm ->
  apply_maps_to_modelform_fields (base_fields ModelForm) (maps self)
    (options self) (map_template self) (default_field_class self)
    = Return (fields, keymap) ->
  exists cls,
    get_form self args = Return cls
    /\ initial_data_keymap cls = Some keymap
    /\ base_fields cls = fields
    /\ (forall cls_keymap init_args,
          form_init cls cls_keymap init_args
          = (form ← form_init ModelForm cls_keymap init_args;
             km ← attribute (self_initial_data_keymap form);
             d ← fix_initial_data (initial form) km;
             Return (set_initial form d)))
    /\ (forall form,
          form_clean cls form
          = (r ← form_clean ModelForm form;
             cleaned ← attribute (cleaned_data (fst r));
             km ← attribute (self_initial_data_keymap (fst r));
             d ← fix_cleaned_data cleaned km;
             Return (set_cleaned_data (fst r) d, Some d)))
    /\ (forall init_args form,
          form_init ModelForm (Some keymap) init_args = Return form ->
          self_initial_data_keymap form = Some keymap ->
          instantiate cls init_args
          = (d ← fix_initial_data (initial form) keymap;
             Return (set_initial form d))).
Proof.
  intros Hsuper Hmaps. eexists. unfold get_form.
  rewrite Hsuper; simpl. rewrite Hmaps; simpl.
  split; [done|]. split; [done|]. split; [done|].
  split; [intros; reflexivity|]. split.
  - intros form. unfold new_clean. simpl.
    destruct (form_clean ModelForm form) as [[form' r]|e]; simpl; [|done].
    destruct (attribute (cleaned_data form')) as [c|]; simpl; [|done].
    destruct (attribute (self_initial_data_keymap form')) as [km|]; simpl;
      [|done].
    by destruct (fix_cleaned_data c km).
  - intros init_args form Hinit Hkm. unfold instantiate, new_init; simpl.
    rewrite Hinit; simpl. by rewrite Hkm.
Qed.

(** C9: the [clean] that [get_form] installs returns the form's
    [cleaned_data] attribute; what the original [clean] returned is
    dropped, so an original [clean] that leaves the form in the same state
    but returns another dictionary gives the same result. *)
Theorem patched_clean_returns_cleaned_data self args ModelForm cls form :
  ModelAdmin_get_form self args = Return ModelForm ->
  get_form self args = Return cls ->
  form_clean cls form
  = (r ← new_clean (form_clean ModelForm) form; Return (fst r, Some (snd r)))
  /\ (forall form' result,
        form_clean cls form = Return (form', result) ->
        result = cleaned_data form' /\ is_Some result)
  /\ (forall orig_clean,
        fst <$> orig_clean form = fst <$> form_clean ModelForm form ->
        new_clean orig_clean form = new_clean (form_clean ModelForm) form).
Proof.
  intros Hsuper. unfold get_form. rewrite Hsuper; simpl.
  destruct (apply_maps_to_modelform_fields _ _ _ _ _) as [[fields km]|];
    simpl; [|done].
  intros [= <-]; simpl.
  assert (forall form' d,
            new_clean (form_clean ModelForm) form = Return (form', d) ->
            cleaned_data form' = Some d) as Hattr.
  { unfold new_clean. intros form' d.
    destruct (form_clean ModelForm form) as [[f1 r]|]; simpl; [|done].
    destruct (attribute (cleaned_data f1)) as [c|]; simpl; [|done].
    destruct (attribute (self_initial_data_keymap f1)) as [k|]; simpl;
      [|done].
    destruct (fix_cleaned_data c k); simpl; [|done].
    by intros [= <- <-]. }
  split; [|split].
  - by destruct (new_clean (form_clean ModelForm) form) as [[f1 d]|].
  - intros form' result.
    destruct (new_clean (form_clean ModelForm) form) as [[f1 d]|] eqn:Hnew;
      simpl; [|done].
    intros [= <- <-]. rewrite (Hattr f1 d eq_refl). by split.
  - intros orig_clean Hsame. unfold new_clean.
    destruct (orig_clean form) as [[f1 r1]|e1];
      destruct (form_clean ModelForm form) as [[f2 r2]|e2];
      simpl in Hsame; try done.
    + by injection Hsame as ->.
    + by injection Hsame as ->.
Qed.

(** ** The store after [get_changelist_map] *)

Lemma reprojects_nil h : reprojects [] h h.
Proof. intros a. split; [by intros ?%elem_of_nil|done]. Qed.

Lemma reprojects_app addrs addrs' h h1 h' :
  reprojects addrs h h1 -> reprojects addrs' h1 h' ->
  reprojects (addrs ++ addrs') h h'.
Proof.
  intros H1 H2 a. destruct (H1 a) as [Hin1 Hout1], (H2 a) as [Hin2 Hout2].
  destruct (decide (a ∈ addrs)) as [Ha|Ha];
    destruct (decide (a ∈ addrs')) as [Ha'|Ha'].
  - split; [intros _|by rewrite elem_of_app; intros []; left].
    specialize (Hin1 Ha). specialize (Hin2 Ha').
    rewrite (transformed_idem _ _ _ Hin1) in Hin2. by rewrite <- Hin2.
  - split; [intros _|by rewrite elem_of_app; intros []; left].
    rewrite (Hout2 Ha'). by apply Hin1.
  - split; [intros _|by rewrite elem_of_app; intros []; right].
    rewrite <- (Hout1 Ha). by apply Hin2.
  - split; [by rewrite elem_of_app; intros [|]|intros _].
    by rewrite (Hout2 Ha'), (Hout1 Ha).
Qed.

Lemma reprojects_one a h h' :
  GEOSGeometry_transform DEFAULT_PROJ a h = Return h' -> reprojects [a] h h'.
Proof.
  intros Ht b.
  pose proof (GEOSGeometry_transform_spec DEFAULT_PROJ a h) as Hs.
  rewrite Ht in Hs. destruct Hs as [Ha Hother].
  split.
  - by intros ->%list_elem_of_singleton.
  - intros Hb. apply Hother. intros ->. apply Hb.
    by apply list_elem_of_singleton.
Qed.

Lemma transform_geoms_reprojects addrs :
  forall h h',
    transform_geoms (VGeom <$> addrs) h = Return h' -> reprojects addrs h h'.
Proof.
  induction addrs as [|a addrs IH]; intros h h'; simpl.
  { intros [= <-]. apply reprojects_nil. }
  destruct (GEOSGeometry_transform DEFAULT_PROJ a h) as [h1|] eqn:Ha; simpl;
    [|done].
  intros Hrest. apply (reprojects_app [a] addrs h h1 h').
  - by apply reprojects_one.
  - by apply IH.
Qed.

Lemma reprojects_evolves addrs h h' : reprojects addrs h h' -> evolves h h'.
Proof.
  intros Hr a. destruct (Hr a) as [Hin Hout].
  destruct (decide (a ∈ addrs)); [right; by apply Hin|left; by apply Hout].
Qed.

Lemma info_step_reprojects list_map cl obj info h info' h' :
  info_step list_map cl obj info h = Return (info', h') ->
  exists addrs,
    collect_geoms h obj list_map [] = Return (VGeom <$> addrs)
    /\ reprojects addrs h h'.
Proof.
  unfold info_step.
  destruct (collect_geoms h obj list_map []) as [geoms|]; simpl; [|done].
  pose proof (transform_geoms_sim h geoms h (evolves_refl h)) as Hsim.
  destruct (transform_geoms geoms h) as [h1|] eqn:Ht; simpl; [|done].
  destruct Hsim as (_ & _ & gs & Hgs & _).
  destruct (reprojected_all_Return h geoms gs Hgs) as (addrs & -> & _).
  intros Hret. exists addrs. split; [done|].
  assert (h' = h1) as ->; [|by apply transform_geoms_reprojects].
  destruct (VGeom <$> addrs); simpl in Hret; [by injection Hret|].
  destruct (new_GeometryCollection _ _ _); simpl in Hret; [|done].
  by injection Hret.
Qed.

Lemma info_loop_reprojects h0 list_map cl qs :
  forall info h info' h',
    evolves h0 h ->
    info_loop list_map cl qs info h = Return (info', h') ->
    exists addrss,
      Forall2 (fun obj addrs =>
                 collect_geoms h0 obj list_map [] = Return (VGeom <$> addrs))
              qs addrss
      /\ reprojects (concat addrss) h h'.
Proof.
  induction qs as [|obj qs IH]; intros info h info' h' He; simpl.
  { intros [= <- <-]. exists []. split; [constructor|apply reprojects_nil]. }
  pose proof (info_step_sim h0 list_map cl obj info h He) as Hsim.
  destruct (info_step list_map cl obj info h) as [[info1 h1]|] eqn:Hstep;
    simpl; [|done].
  destruct Hsim as [He1 _]. intros Hloop.
  destruct (info_step_reprojects _ _ _ _ _ _ _ Hstep) as (addrs & Hc & Hr).
  destruct (IH info1 h1 info' h' He1 Hloop) as (addrss & Hall & Hrs).
  exists (addrs :: addrss). split.
  - constructor; [|done].
    by rewrite <- (collect_geoms_evolves h0 h obj list_map He).
  - simpl. by apply (reprojects_app addrs (concat addrss) h h1 h').
Qed.

(** X1: [get_changelist_map] works on the geometry objects themselves.  When
    it returns a map, the store is the one it started from with exactly the
    geometries collected off the queryset's objects transformed in place
    to [int(DEFAULT_PROJ)]; no other object has changed. *)
Theorem get_changelist_map_in_place self cl request h map_ h' :
  get_changelist_map self cl request h = Return (Some map_, h') ->
  exists fields qs addrss,
    list_map self = Some fields
    /\ get_queryset cl request = Return qs
    /\ Forall2 (fun obj addrs =>
                  collect_geoms h obj fields [] = Return (VGeom <$> addrs))
               qs addrss
    /\ reprojects (concat addrss) h h'.
Proof.
  unfold get_changelist_map.
  destruct (list_map self) as [[|f fs]|]; try done.
  replace (match request with
           | Some r => get_queryset cl (Some r)
           | None => get_queryset cl None
           end) with (get_queryset cl request) by (by destruct request).
  destruct (get_queryset cl request) as [qs|]; simpl; [|done].
  destruct (info_loop (f :: fs) cl qs [] h) as [[info' h1]|] eqn:Hloop;
    simpl; [|done].
  intros [= <- <-].
  destruct (info_loop_reprojects h (f :: fs) cl qs [] h info' h1
              (evolves_refl h) Hloop) as (addrss & Hall & Hr).
  by exists (f :: fs), qs, addrss.
Qed.

(** ** Which objects get an entry, and what can go wrong *)

Lemma collect_geoms_has_geometry h obj fields geoms :
  collect_geoms h obj fields [] = Return geoms ->
  has_geometry h fields obj = nonempty geoms.
Proof.
  revert geoms. induction fields as [|f fields IH]; intros geoms; simpl.
  { by intros [= <-]. }
  unfold getattr. destruct (attrs obj !! f) as [v|]; simpl; [|done].
  destruct (truthy h v); simpl; [|apply IH].
  destruct (if callable v then call v else Return v) as [r|]; simpl; [|done].
  rewrite collect_geoms_acc.
  destruct (collect_geoms h obj fields []) as [gs|]; simpl; [|done].
  by intros [= <-].
Qed.

Lemma entry_of_labels h list_map cl obj es :
  entry_of h list_map cl obj = Return es ->
  snd <$> es
  = if has_geometry h list_map obj then [label_of cl obj] else [].
Proof.
  unfold entry_of.
  destruct (collect_geoms h obj list_map []) as [geoms|] eqn:Hc; simpl;
    [|done].
  rewrite (collect_geoms_has_geometry h obj list_map geoms Hc).
  destruct (reprojected_all h geoms) as [gs|]; simpl; [|done].
  destruct geoms as [|v geoms]; simpl; [by intros [= <-]|].
  destruct (collection_of gs); simpl; [|done]. by intros [= <-].
Qed.

Lemma entries_of_labels h list_map cl qs es :
  entries_of h list_map cl qs = Return es ->
  snd <$> es
  = label_of cl <$> List.filter (has_geometry h list_map) qs.
Proof.
  revert es. induction qs as [|obj qs IH]; intros es; simpl.
  { by intros [= <-]. }
  destruct (entry_of h list_map cl obj) as [e|] eqn:He; simpl; [|done].
  destruct (entries_of h list_map cl qs) as [rest|]; simpl; [|done].
  intros [= <-]. rewrite fmap_app, (IH rest eq_refl).
  rewrite (entry_of_labels h list_map cl obj e He).
  by destruct (has_geometry h list_map obj).
Qed.

(** X3: whenever [get_changelist_map] returns a map, its entries are, in
    the order of the queryset, those of the objects that have a truthy
    listed attribute: the labels of the map are the links to exactly these
    objects. *)
Theorem get_changelist_map_labels self cl request h map_ :
  fst <$> get_changelist_map self cl request h = Return (Some map_) ->
  exists fields qs,
    list_map self = Some fields
    /\ get_queryset cl request = Return qs
    /\ snd <$> info map_
       = label_of cl <$> List.filter (has_geometry h fields) qs.
Proof.
  intros Hrun.
  pose proof (get_changelist_map_sim self cl request h) as Hs.
  destruct (get_changelist_map self cl request h) as [[m h']|]; [|done].
  injection Hrun as ->. destruct Hs as [_ Hs].
  destruct (list_map self) as [[|f fs]|]; try (by destruct Hs).
  destruct Hs as (qs & es & Hqs & Hes & [= ->]).
  exists (f :: fs), qs. split; [done|]. split; [done|].
  by apply entries_of_labels.
Qed.







(** ** More on [changelist_view] *)

(** X5: without the change permission the view raises [PermissionDenied]
    before anything else is done: whatever the request, the extra context
    and the way the change list would be constructed. *)
Theorem changelist_view_permission_denied self request extra_context s :
  has_change_permission self request = false ->
  changelist_view self request extra_context s = Raise PermissionDenied
  /\ ModelAdmin_changelist_view self request extra_context s
     = Raise PermissionDenied.
Proof.
  intros Hperm.
  rewrite changelist_view_cases, ModelAdmin_changelist_view_cases.
  rewrite (changelist_prelude_raise self request s PermissionDenied); [done|].
  unfold construct_changelist. by rewrite Hperm.
Qed.

Lemma construct_changelist_Return self request s cl s1 :
  has_change_permission self request = true ->
  get_changelist self request (changelist_args self request) s
    = Return (cl, s1) ->
  construct_changelist self request s = Return (inr cl, s1).
Proof.
  intros Hperm Hcl. unfold construct_changelist.
  rewrite Hperm; simpl. by rewrite Hcl.
Qed.

(** The formset of a change list that is only displayed. *)
Lemma bulk_edit_display self request cl action_failed s :
  (is_POST request && nonempty (cl_list_editable cl)
   && has_key "_save" (POST request) && negb action_failed) = false ->
  bulk_edit self request cl action_failed s
  = Return (inr (set_formset cl
                   (if nonempty (cl_list_editable cl)
                    then Some (get_changelist_formset self request None
                                 (result_list cl))
                    else None)), s).
Proof.
  intros Hcond. unfold bulk_edit. simpl. rewrite Hcond.
  by destruct (nonempty (cl_list_editable cl)).
Qed.

(** X6: a request that is not a POST changes nothing before the change
    list is rendered: no action is run, no message is sent, no form is
    saved.  The view goes from the constructed change list (with an
    unbound formset if the list is editable) straight to the context, the
    map and the template, in the state the constructor left. *)
Theorem changelist_view_not_POST self request extra_context s cl s1 :
  is_POST request = false ->
  has_change_permission self request = true ->
  get_changelist self request (changelist_args self request) s
    = Return (cl, s1) ->
  let cl' :=
    set_formset cl
      (if nonempty (cl_list_editable cl)
       then Some (get_changelist_formset self request None (result_list cl))
       else None) in
  changelist_prelude self request s = Return (inr cl', s1)
  /\ changelist_view self request extra_context s
     = (context ← add_changelist_map self cl'
                    (changelist_context self request cl' extra_context);
        mret (changelist_response self request context)) s1
  /\ ModelAdmin_changelist_view self request extra_context s
     = Return (changelist_response self request
                 (changelist_context self request cl' extra_context), s1).
Proof.
  intros Hget Hperm Hcl cl'.
  assert (changelist_prelude self request s = Return (inr cl', s1)) as Hpre.
  { unfold changelist_prelude. unfold_blocks.
    rewrite (construct_changelist_Return self request s cl s1 Hperm Hcl).
    unfold actions_no_confirmation, actions_with_confirmation.
    rewrite Hget, !andb_false_r; simpl. unfold_blocks.
    rewrite (bulk_edit_display self request cl false s1); [done|].
    by rewrite Hget. }
  split; [done|].
  by rewrite changelist_view_cases, ModelAdmin_changelist_view_cases, Hpre.
Qed.

(** X7: the loop over the forms of a valid formset.  When it returns, the
    count has grown by the number of forms that have changed; and when no
    form has changed nothing is saved or logged: the count, the last saved
    object and the state are as they were. *)
Theorem save_changed_forms_count self request fs :
  forall changecount last s,
    (forall n last' s',
       save_changed_forms self request fs changecount last s
         = Return ((n, last'), s') ->
       n = (changecount + length (List.filter has_changed fs))%nat)
    /\ (forallb (fun form => negb (has_changed form)) fs = true ->
        save_changed_forms self request fs changecount last s
        = Return ((changecount, last), s)).
Proof.
  induction fs as [|form fs IH]; intros changecount last s; simpl.
  { split; [|done]. intros n last' s' [= <- _ _]. by rewrite Nat.add_0_r. }
  destruct (has_changed form); simpl.
  - split; [|done]. intros n last' s'. unfold_blocks.
    destruct (save_form self request form s) as [[obj s1]|]; [|done].
    destruct (save_model self request obj form s1) as [[[] s2]|]; [|done].
    destruct (save_related self request form s2) as [[[] s3]|]; [|done].
    destruct (log_change self request obj _ s3) as [[[] s4]|]; [|done].
    intros Hrest. destruct (IH (S changecount) (Some obj) s4) as [Hcount _].
    rewrite (Hcount n last' s' Hrest). simpl. by rewrite Nat.add_succ_r.
  - apply IH.
Qed.

Lemma actions_skipped_on_save self request cl action_failed s :
  has_key "_save" (POST request) = true ->
  actions_no_confirmation self request cl action_failed s
  = Return (inr action_failed, s)
  /\ actions_with_confirmation self request cl action_failed s
     = Return (inr action_failed, s).
Proof.
  intros Hsave. unfold actions_no_confirmation, actions_with_confirmation.
  by rewrite Hsave, !andb_false_r.
Qed.

(** X8: a bulk edit.  For a POST with [_save] to an editable change list
    whose formset is valid, no action is run and no map is built: every
    response of the view is the redirect to [request.get_full_path()], as
    for the parent; and when no form has changed the view returns this
    redirect in the state the constructor left. *)
Theorem changelist_view_bulk_edit self request extra_context s cl s1 :
  is_POST request = true ->
  has_key "_save" (POST request) = true ->
  has_change_permission self request = true ->
  get_changelist self request (changelist_args self request) s
    = Return (cl, s1) ->
  nonempty (cl_list_editable cl) = true ->
  let formset :=
    get_changelist_formset self request
      (Some (POST request, FILES request)) (result_list cl) in
  is_valid formset = true ->
  changelist_view self request extra_context s
  = ModelAdmin_changelist_view self request extra_context s
  /\ (forall response s',
        changelist_view self request extra_context s
          = Return (response, s') ->
        response = HttpResponseRedirect (full_path request))
  /\ (forallb (fun form => negb (has_changed form)) (forms formset) = true ->
      changelist_view self request extra_context s
      = Return (HttpResponseRedirect (full_path request), s1)).
Proof.
  intros Hpost Hsave Hperm Hcl Hedit formset Hvalid.
  rewrite changelist_view_cases, ModelAdmin_changelist_view_cases.
  unfold changelist_prelude. unfold_blocks.
  rewrite (construct_changelist_Return self request s cl s1 Hperm Hcl).
  destruct (actions_skipped_on_save self request cl false s1 Hsave)
    as [-> ->].
  unfold bulk_edit. simpl. rewrite Hpost, Hedit, Hsave. simpl.
  fold formset. rewrite Hvalid. unfold_blocks.
  pose proof (save_changed_forms_count self request (forms formset)
                0%nat None s1) as [_ Hnone].
  destruct (save_changed_forms self request (forms formset) 0%nat None s1)
    as [[[n last] s2]|].
  - match goal with
    | |- context [match ?msg s2 with Return _ => _ | Raise _ => _ end] =>
        destruct (msg s2) as [[[] s3]|] eqn:Hmsg
    end.
    + split; [done|]. split; [by intros response s' [= <- _]|].
      intros Hall. specialize (Hnone Hall). injection Hnone as -> -> ->.
      simpl in Hmsg. by injection Hmsg as <-.
    + split; [done|]. split; [done|].
      intros Hall. specialize (Hnone Hall). by injection Hnone as -> -> ->.
  - split; [done|]. split; [done|].
    intros Hall. by specialize (Hnone Hall).
Qed.

(** X9: a failed action never stands in the way of a bulk edit.  The two
    action blocks can only set [action_failed] for a POST without [_save],
    and the bulk-edit block only looks at it for a POST with [_save]: so
    the block does what it would do with [action_failed] false. *)
Theorem bulk_edit_ignores_action_failed self request cl s failed s1 failed'
    s2 :
  actions_no_confirmation self request cl false s = Return (inr failed, s1) ->
  actions_with_confirmation self request cl failed s1
    = Return (inr failed', s2) ->
  bulk_edit self request cl failed' s2 = bulk_edit self request cl false s2.
Proof.
  intros Hfirst Hsecond.
  destruct (has_key "_save" (POST request)) eqn:Hsave.
  - destruct (actions_skipped_on_save self request cl false s Hsave)
      as [Hone _].
    rewrite Hone in Hfirst. injection Hfirst as <- <-.
    destruct (actions_skipped_on_save self request cl false s Hsave)
      as [_ Htwo].
    rewrite Htwo in Hsecond. by injection Hsecond as <- <-.
  - unfold bulk_edit. simpl. by rewrite Hsave, !andb_false_r.
Qed.

Lemma changelist_context_union self request cl extra_context :
  changelist_context self request cl extra_context
  = default ∅ extra_context
      ∪ (list_to_map (view_entries self request cl)
           ∪ each_context self request).
Proof using Type.
  unfold changelist_context, view_entries.
  match goal with
  | |- match extra_context with Some _ => _ | None => ?c end = _ ∪ ?u =>
      assert (c = u) as ->
  end.
  { cbn [list_to_map foldr uncurry fst snd].
    by rewrite <- !insert_union_l, (left_id ∅ _). }
  destruct extra_context as [extra|]; simpl; [done|].
  by rewrite (left_id ∅ _).
Qed.

(** X10: who wins in the template context.  An entry of [extra_context]
    replaces any entry of the same key; failing that, each of the fifteen
    keys of the view has the value the view gives it, whatever
    [each_context] says; and an entry of [each_context] shows only under a
    key that neither the view nor [extra_context] uses. *)
Theorem changelist_context_precedence self request cl extra_context key :
  let context := changelist_context self request cl extra_context in
  let extra := default ∅ extra_context in
  let entries : gmap string cval :=
    list_to_map (view_entries self request cl) in
  (view_entries self request cl).*1 = view_keys
  /\ NoDup view_keys
  /\ context !! key
     = match extra !! key with
       | Some v => Some v
       | None =>
           match entries !! key with
           | Some v => Some v
           | None => each_context self request !! key
           end
       end.
Proof using Type.
  intros context extra entries. subst context extra entries.
  split; [done|]. split.
  { unfold view_keys. apply (bool_decide_unpack _). by vm_compute. }
  rewrite changelist_context_union, !lookup_union.
  by destruct (default ∅ extra_context !! key),
       (list_to_map (view_entries self request cl) !! key),
       (each_context self request !! key).
Qed.

Lemma getlist_has_key k q :
  nonempty (getlist k q) = true -> has_key k q = true.
Proof.
  unfold getlist, has_key. induction q as [|[k' vs] q IH]; simpl; [done|].
  destruct (String.eqb k k'); [done|]. apply IH.
Qed.

(** X11: an action with a selection.  For a POST without [_save] that
    selects rows, with actions available, the action is run on
    [cl.get_queryset(request)] whether or not [index] is posted; when it
    answers with a response, that response is what the view returns, as
    the parent does: no formset is made and no map is built. *)
Theorem changelist_view_action_response self request extra_context s cl s1 qs
    response s2 :
  has_change_permission self request = true ->
  get_changelist self request (changelist_args self request) s
    = Return (cl, s1) ->
  nonempty (get_actions self request) = true ->
  is_POST request = true ->
  has_key "_save" (POST request) = false ->
  nonempty (getlist ACTION_CHECKBOX_NAME (POST request)) = true ->
  get_queryset cl (Some request) = Return qs ->
  response_action self request qs s1 = Return (Some response, s2) ->
  changelist_view self request extra_context s = Return (response, s2)
  /\ ModelAdmin_changelist_view self request extra_context s
     = Return (response, s2).
Proof.
  intros Hperm Hcl Hactions Hpost Hsave Hselected Hqs Haction.
  rewrite changelist_view_cases, ModelAdmin_changelist_view_cases.
  assert (changelist_prelude self request s = Return (inl response, s2))
    as ->; [|done].
  unfold changelist_prelude. unfold_blocks.
  rewrite (construct_changelist_Return self request s cl s1 Hperm Hcl).
  unfold actions_no_confirmation, actions_with_confirmation,
    run_response_action, lift.
  unfold_blocks.
  rewrite Hactions, Hpost, Hsave, Hselected, Hqs.
  rewrite (getlist_has_key _ _ Hselected). simpl.
  destruct (has_key "index" (POST request)); simpl; by rewrite Haction.
Qed.

End GeoModelAdmin.

(** * A concrete admin

    A model with a geometry field [geom] and a method [centroid], listed in
    [list_map]; coordinates are pairs of integers and reprojection shifts
    the first one by the difference of the two SRIDs. *)

Module Places.

Definition coord : Type := Z * Z.

Definition reproject (s t : Z) (c : coord) : coord :=
  (fst c + (t - s), snd c).

(** The spatial reference systems known are 4326 and 3857. *)
Definition ogr_error (s t : Z) (cs : list coord) : option exn :=
  if ((s =? 4326) || (s =? 3857)) && ((t =? 4326) || (t =? 3857)) then None
  else Some GDALException.

Definition DEFAULT_PROJ : Z := 4326.

Definition Media : Type := list string.
Definition media_add (a b : Media) : Media := a ++ b.

Definition InfoMap_media (m : InfoMap (coord:=coord) (map_options:=string))
  : Media :=
  ["olwidget/js/olwidget.js"].
Definition InfoMap_bool (m : InfoMap (coord:=coord) (map_options:=string))
  : bool :=
  true.

Definition Data : Type := list (string * string).
Definition Keymap : Type := list (string * string).

(** The key map renames the keys of a dictionary. *)
Definition rename (km : Keymap) (kv : string * string) : string * string :=
  match find (fun p => String.eqb (fst p) (fst kv)) km with
  | Some p => (snd p, snd kv)
  | None => kv
  end.

Definition apply_maps_to_modelform_fields (fields : list string)
    (maps : option unit) (options : option string) (template : string)
    (default_field_class : option unit)
  : outcome (list string * Keymap) :=
  Return (fields, [("geom", "geom_map")]).
Definition fix_initial_data (d : Data) (km : Keymap) : outcome Data :=
  Return (rename km <$> d).
Definition fix_cleaned_data (d : Data) (km : Keymap) : outcome Data :=
  Return (rename (prod_swap <$> km) <$> d).

Definition ERROR_FLAG : string := "e".
Definition ACTION_CHECKBOX_NAME : string := "_selected_action".
Definition gettext (s : string) : string := s.
Definition ungettext (singular plural : string) (n : nat) : string :=
  if Nat.eqb n 1 then singular else plural.
Definition format (fmt : string) (args : list (string * fmt_arg)) : string :=
  fmt.

(** The store: a point in another projection, a line in the target
    projection already, an empty point, a point in a spatial reference
    system that is not known, and a collection. *)
Definition store : heap (coord:=coord) := fun a =>
  match a with
  | 0%nat => {| srid := Some 3857; coords := [(10, 20)]; geom_type := Point |}
  | 1%nat => {| srid := Some 4326; coords := [(1, 2); (3, 4)];
                geom_type := LineString |}
  | 3%nat => {| srid := Some 900913; coords := [(5, 6)]; geom_type := Point |}
  | 4%nat => {| srid := Some 4326; coords := [(7, 8)];
                geom_type := Collection |}
  | _ => {| srid := Some 4326; coords := []; geom_type := Point |}
  end.

Definition place : model_obj := {|
  attrs := {[ "geom" := VGeom 0%nat;
              "centroid" := VCallable (Return (VGeom 1%nat)) ]};
  text := "Place 1"
|}.

(** An object with nothing to show: no geometry, an empty one. *)
Definition unset : model_obj := {|
  attrs := {[ "geom" := VNone; "centroid" := VGeom 2%nat ]};
  text := "Place 2"
|}.

(** An object with a geometry, whose method returns [None]. *)
Definition half : model_obj := {|
  attrs := {[ "geom" := VGeom 1%nat; "centroid" := VCallable (Return VNone) ]};
  text := "Place 4"
|}.



Definition opts : Options := {|
  app_label := "places";
  model_name := "place";
  verbose_name := "place";
  verbose_name_plural := "places"
|}.

Definition change_list (qs : list model_obj)
  : ChangeList (Media:=Media) := {|
  get_queryset := fun _ => Return qs;
  url_for_result := fun obj => "/admin/places/place/" +:+ text obj +:+ "/";
  result_list := qs;
  result_count := length qs;
  cl_list_editable := [];
  title := "Select place to change";
  is_popup := false;
  to_field := None;
  cl_opts := opts;
  formset := None
|}.

(** The framework state is the list of the messages sent to the user. *)
Definition W : Type := list string.

Definition Admin : Type :=
  GeoModelAdmin (coord:=coord) (map_options:=string) (Media:=Media) (W:=W)
    (Data:=Data) (Keymap:=Keymap) (Fields:=list string) (Maps:=unit)
    (FieldClass:=unit) (InitArgs:=Data) (GetFormArgs:=unit)
    (FormState:=unit).

(** The form class that [ModelAdmin.get_form] generates: its [clean]
    copies the initial data to [cleaned_data] and returns [None]. *)
Definition generated_form
  : ModelFormClass (Data:=Data) (Keymap:=Keymap) (Fields:=list string)
      (InitArgs:=Data) (FormState:=unit) := {|
  form_init := fun km d =>
    Return {| initial := d; cleaned_data := None;
              self_initial_data_keymap := km; form_state := tt |};
  form_clean := fun form =>
    Return (set_cleaned_data form (initial form), None);
  base_fields := ["name"; "geom"];
  initial_data_keymap := None
|}.

Definition admin (fields : option (list string))
    (construct : M (coord:=coord) (W:=W) (ChangeList (Media:=Media)))
  : Admin := {|
  options := None;
  map_template := "olwidget/admin_olwidget.html";
  list_map := fields;
  list_map_options := Some "cluster";
  maps := None;
  change_list_template := Some "admin/olwidget_change_list.html";
  default_field_class := None;
  ModelAdmin_get_form := fun _ => Return generated_form;
  model_meta := opts;
  admin_site_name := "admin";
  each_context := fun _ => {[ "site_title" := CStr "Django site admin" ]};
  has_change_permission := fun _ => true;
  has_add_permission := fun _ => true;
  get_list_display := fun _ => ["__str__"];
  get_list_display_links := fun _ l => l;
  get_list_filter := fun _ => [];
  get_search_fields := fun _ => [];
  get_actions := fun _ => ["delete_selected"];
  get_changelist := fun _ _ => construct;
  date_hierarchy := None;
  list_select_related := false;
  list_per_page := 100;
  list_max_show_all := 200;
  list_editable := [];
  response_action := fun _ _ s => Return (None, s);
  message_user := fun _ msg _ s =>
    Return (tt, {| geoms := geoms s; world := world s ++ [msg] |});
  get_changelist_formset := fun _ _ _ =>
    {| forms := []; is_valid := true; formset_media := [] |};
  save_form := fun _ _ s => Return (place, s);
  save_model := fun _ _ _ s => Return (tt, s);
  save_related := fun _ _ s => Return (tt, s);
  construct_change_message := fun _ _ => "Changed geom.";
  log_change := fun _ _ _ s => Return (tt, s);
  media := ["admin/js/core.js"];
  get_action_choices := fun _ => [("delete_selected", "Delete selected")];
  actions_on_top := true;
  actions_on_bottom := false;
  actions_selection_counter := true;
  get_preserved_filters := fun _ => ""
|}.

Definition GET_request (query : QueryDict) : HttpRequest := {|
  path := "/admin/places/place/";
  full_path := "/admin/places/place/";
  method := "GET";
  GET := query;
  POST := [];
  FILES := [];
  current_app := None
|}.

Definition start : state (coord:=coord) (W:=W) :=
  {| geoms := store; world := [] |}.

Definition fields : list string := ["geom"; "centroid"].

(** The admin of a model whose change list shows the objects [qs]. *)
Definition site (qs : list model_obj) : Admin :=
  admin (Some fields) (fun s => Return (change_list qs, s)).

(** A change list whose [get_queryset] takes the request, as Django's
    does, and the admin of a model shown in such a change list. *)
Definition requiring_request (qs : list model_obj)
  : ChangeList (Media:=Media) := {|
  get_queryset := fun request =>
    match request with
    | Some _ => Return qs
    | None => Raise TypeError
    end;
  url_for_result := fun obj => "/admin/places/place/" +:+ text obj +:+ "/";
  result_list := qs;
  result_count := length qs;
  cl_list_editable := [];
  title := "Select place to change";
  is_popup := false;
  to_field := None;
  cl_opts := opts;
  formset := None
|}.

Definition django_site (qs : list model_obj) : Admin :=
  admin (Some fields) (fun s => Return (requiring_request qs, s)).

Definition place_map : InfoMap (coord:=coord) (map_options:=string) := {|
  info :=
    [({| gc_geoms := [{| srid := Some 4326; coords := [(479, 20)];
                         geom_type := Point |};
                      {| srid := Some 4326; coords := [(1, 2); (3, 4)];
                         geom_type := LineString |}];
         gc_srid := Some 4326 |},
      "<a href='/admin/places/place/Place 1/'>Place 1</a>")];
  im_options := Some "cluster"
|}.

(** The views, the context and the form class of an admin. *)
Definition view (self : Admin) :=
  changelist_view reproject ogr_error DEFAULT_PROJ media_add InfoMap_media InfoMap_bool
    ERROR_FLAG ACTION_CHECKBOX_NAME gettext ungettext format self.

Definition parent_view (self : Admin) :=
  ModelAdmin_changelist_view media_add ERROR_FLAG ACTION_CHECKBOX_NAME gettext
    ungettext format self.

Definition context_of (qs : list model_obj) (request : HttpRequest) :=
  changelist_context media_add gettext ungettext format (site qs) request
    (change_list qs) None.

(** An admin whose change list cannot be constructed. *)
Definition failing (e : exn) : Admin :=
  admin (Some fields) (fun _ => Raise e).

Definition error_page : HttpResponse (coord:=coord) (map_options:=string)
                          (Media:=Media) :=
  SimpleTemplateResponse "admin/invalid_setup.html"
    {["title" := CStr "Database error"]}.

(** The store after the map of [place] is built: its [geom] reprojected. *)
Definition after : state (coord:=coord) (W:=W) := {|
  geoms := <[0%nat := {| srid := Some 4326; coords := [(479, 20)];
                         geom_type := Point |}]> store;
  world := []
|}.

Definition prelude (self : Admin) :=
  changelist_prelude ERROR_FLAG ACTION_CHECKBOX_NAME gettext ungettext format
    self.

Definition form_of (self : Admin) :=
  get_form apply_maps_to_modelform_fields fix_initial_data fix_cleaned_data
    self.

(** The class [get_form] returns for [generated_form]. *)
Definition patched_form
  : ModelFormClass (Data:=Data) (Keymap:=Keymap) (Fields:=list string)
      (InitArgs:=Data) (FormState:=unit) := {|
  form_init := new_init fix_initial_data (form_init generated_form);
  form_clean := fun self =>
    '(self, d) ← new_clean fix_cleaned_data (form_clean generated_form) self;
    Return (self, Some d);
  base_fields := ["name"; "geom"];
  initial_data_keymap := Some [("geom", "geom_map")]
|}.

Definition bound_form
  : ModelFormInstance (Data:=Data) (Keymap:=Keymap) (FormState:=unit) := {|
  initial := [("geom_map", "POINT (1 2)")];
  cleaned_data := None;
  self_initial_data_keymap := Some [("geom", "geom_map")];
  form_state := tt
|}.

(** A change list that can be edited in place. *)
Definition editable_list (qs : list model_obj)
  : ChangeList (Media:=Media) := {|
  get_queryset := fun _ => Return qs;
  url_for_result := fun obj => "/admin/places/place/" +:+ text obj +:+ "/";
  result_list := qs;
  result_count := length qs;
  cl_list_editable := ["name"];
  title := "Select place to change";
  is_popup := false;
  to_field := None;
  cl_opts := opts;
  formset := None
|}.

(** A formset with one form per object; the forms of the bound formset
    have changed as [changes] says. *)
Definition formset_of (changes : list bool)
    (data : option (QueryDict * QueryDict)) (qs : list model_obj)
  : FormSet (Media:=Media) := {|
  forms :=
    match data with
    | Some _ =>
        (fun c => {| has_changed := c; form_prefix := "form" |}) <$> changes
    | None =>
        (fun _ => {| has_changed := false; form_prefix := "form" |}) <$> qs
    end;
  is_valid := true;
  formset_media := ["admin/js/inlines.js"]
|}.

(** An admin with editable rows, whose saves are written to the log and
    whose actions answer with [answer]. *)
Definition desk_with
    (answer : option (HttpResponse (coord:=coord) (map_options:=string)
                        (Media:=Media)))
    (permission : bool) (changes : list bool) (qs : list model_obj)
  : Admin := {|
  options := None;
  map_template := "olwidget/admin_olwidget.html";
  list_map := Some fields;
  list_map_options := None;
  maps := None;
  change_list_template := None;
  default_field_class := None;
  ModelAdmin_get_form := fun _ => Return generated_form;
  model_meta := opts;
  admin_site_name := "admin";
  each_context := fun _ => {[ "site_title" := CStr "Django site admin";
                              "title" := CStr "Site" ]};
  has_change_permission := fun _ => permission;
  has_add_permission := fun _ => true;
  get_list_display := fun _ => ["__str__"; "name"];
  get_list_display_links := fun _ l => take 1 l;
  get_list_filter := fun _ => [];
  get_search_fields := fun _ => [];
  get_actions := fun _ => ["delete_selected"];
  get_changelist := fun _ _ s => Return (editable_list qs, s);
  date_hierarchy := None;
  list_select_related := false;
  list_per_page := 100;
  list_max_show_all := 200;
  list_editable := ["name"];
  response_action := fun _ _ s =>
    Return (answer, {| geoms := geoms s; world := world s ++ ["action"] |});
  message_user := fun _ msg _ s =>
    Return (tt, {| geoms := geoms s; world := world s ++ [msg] |});
  get_changelist_formset := fun _ => formset_of changes;
  save_form := fun _ _ s => Return (place, s);
  save_model := fun _ obj _ s =>
    Return (tt, {| geoms := geoms s;
                   world := world s ++ ["saved " +:+ text obj] |});
  save_related := fun _ _ s => Return (tt, s);
  construct_change_message := fun _ _ => "Changed name.";
  log_change := fun _ _ _ s => Return (tt, s);
  media := ["admin/js/core.js"];
  get_action_choices := fun _ => [("delete_selected", "Delete selected")];
  actions_on_top := true;
  actions_on_bottom := false;
  actions_selection_counter := true;
  get_preserved_filters := fun _ => ""
|}.

Definition desk := desk_with None.

(** What the action run on the selection leaves. *)
Definition acted : state (coord:=coord) (W:=W) := {|
  geoms := store;
  world := ["action"]
|}.

Definition POST_request (data : QueryDict) : HttpRequest := {|
  path := "/admin/places/place/";
  full_path := "/admin/places/place/?o=1";
  method := "POST";
  GET := [("o", ["1"])];
  POST := data;
  FILES := [];
  current_app := None
|}.

(** The state after the message about the missing selection. *)
Definition warned : state (coord:=coord) (W:=W) := {|
  geoms := store;
  world := ["Items must be selected in order to perform actions on them. "
            +:+ "No items have been changed."]
|}.

(** Three bound forms, two of them changed, and the state after they are
    saved. *)
Definition three_forms : list ChangeForm :=
  forms (formset_of [true; false; true] (Some ([], [])) []).

Definition saved_twice : state (coord:=coord) (W:=W) := {|
  geoms := store;
  world := ["saved Place 1"; "saved Place 1"]
|}.

(** ** The properties at this admin *)

Lemma collect_geoms_resolves_callable_witness :
  getattr place "centroid" = Return (VCallable (Return (VGeom 1%nat)))
  /\ collect_geoms store place (["geom"] ++ "centroid" :: []) []
     = Return [VGeom 0%nat; VGeom 1%nat].
Proof.
  split; [reflexivity|].
  rewrite (collect_geoms_resolves_callable store place ["geom"] "centroid" []
             (VCallable (Return (VGeom 1%nat))));
    reflexivity.
Defined.

Lemma get_changelist_map_skips_unset_witness :
  no_geometry store fields unset = true
  /\ get_changelist_map reproject ogr_error DEFAULT_PROJ (site [place; unset])
       (change_list ([place] ++ unset :: [])) None store
     = get_changelist_map reproject ogr_error DEFAULT_PROJ (site [place; unset])
         (change_list ([place] ++ [])) None store.
Proof.
  split; [reflexivity|].
  apply (get_changelist_map_skips_unset reproject ogr_error DEFAULT_PROJ
           (site [place; unset]) (change_list ([place] ++ unset :: []))
           (change_list ([place] ++ [])) None store fields [place] unset []);
    reflexivity.
Defined.

Lemma get_changelist_map_shared_projection_witness :
  fst <$> get_changelist_map reproject ogr_error DEFAULT_PROJ (site [place; unset])
            (change_list [place; unset]) None store
  = Return (Some place_map)
  /\ exists fs qs,
       list_map (site [place; unset]) = Some fs
       /\ get_queryset (change_list [place; unset]) None = Return qs
       /\ Forall (fun entry =>
            gc_srid (fst entry) = Some DEFAULT_PROJ
            /\ Forall (fun g => srid g = Some DEFAULT_PROJ)
                      (gc_geoms (fst entry))
            /\ exists obj addrs,
                 obj ∈ qs
                 /\ collect_geoms store obj fs [] = Return (VGeom <$> addrs)
                 /\ Forall2 (fun a g =>
                               transformed reproject ogr_error DEFAULT_PROJ (store a)
                               = Some g)
                            addrs (gc_geoms (fst entry)))
          (info place_map).
Proof.
  split; [reflexivity|].
  apply (get_changelist_map_shared_projection reproject ogr_error DEFAULT_PROJ
           (site [place; unset]) (change_list [place; unset]) None store
           place_map).
  reflexivity.
Defined.


(** C1: [get_changelist_map] at an object with a geometry in [geom] whose
    method [centroid] returns [None].  The object has a truthy listed
    attribute and a geometry to show, so that the map should have one
    entry for it.  The code tests the truthiness of the attribute before
    it calls it: the method is truthy, the [None] it returns is collected
    with the geometry, and [transform] is looked up on [None]:
    [get_changelist_map] raises [AttributeError] and there is no map. *)
Lemma get_changelist_map_method_returning_None :
  has_geometry store fields half = true
  /\ getattr half "geom" = Return (VGeom 1%nat)
  /\ getattr half "centroid" = Return (VCallable (Return VNone))
  /\ collect_geoms store half fields [] = Return [VGeom 1%nat; VNone]
  /\ get_changelist_map reproject ogr_error DEFAULT_PROJ (site [half])
       (change_list [half]) None store
     = Raise AttributeError.
Proof. repeat split. Qed.

Lemma changelist_view_database_error_witness :
  has_key ERROR_FLAG (GET (GET_request [("e", ["1"])])) = true
  /\ view (failing IncorrectLookupParameters) (GET_request [("e", ["1"])])
       None start
     = Return (error_page, start).
Proof.
  split; [reflexivity|].
  apply (changelist_view_database_error reproject ogr_error DEFAULT_PROJ media_add
           InfoMap_media InfoMap_bool ERROR_FLAG ACTION_CHECKBOX_NAME gettext
           ungettext format (failing IncorrectLookupParameters)
           (GET_request [("e", ["1"])]) None start);
    reflexivity.
Defined.

Lemma changelist_view_lookup_error_witness :
  has_key ERROR_FLAG (GET (GET_request [("page", ["x"])])) = false
  /\ view (failing IncorrectLookupParameters)
       (GET_request [("page", ["x"])]) None start
     = Return (HttpResponseRedirect "/admin/places/place/?e=1", start).
Proof.
  split; [reflexivity|].
  apply (changelist_view_lookup_error reproject ogr_error DEFAULT_PROJ media_add
           InfoMap_media InfoMap_bool ERROR_FLAG ACTION_CHECKBOX_NAME gettext
           ungettext format (failing IncorrectLookupParameters)
           (GET_request [("page", ["x"])]) None start
           IncorrectLookupParameters);
    reflexivity.
Defined.

(** C2, as stated, fails twice: with the error flag in the query string
    already, [IncorrectLookupParameters] gives the error page and no
    redirect; and an exception of another class propagates. *)
Lemma changelist_view_no_redirect :
  (view (failing IncorrectLookupParameters) (GET_request [("e", ["1"])])
     None start
   = Return (error_page, start)
   /\ forall url s,
        view (failing IncorrectLookupParameters)
          (GET_request [("e", ["1"])]) None start
        <> Return (HttpResponseRedirect url, s))
  /\ view (failing TypeError) (GET_request []) None start = Raise TypeError.
Proof.
  split; [split; [reflexivity|]|reflexivity].
  intros url s. discriminate.
Qed.

Lemma changelist_view_map_context_witness :
  prelude (site [place; unset]) (GET_request []) start
  = Return (inr (change_list [place; unset]), start)
  /\ view (site [place; unset]) (GET_request []) None start
     = Return (TemplateResponse
                 {| path := "/admin/places/place/";
                    full_path := "/admin/places/place/";
                    method := "GET";
                    GET := [];
                    POST := [];
                    FILES := [];
                    current_app := Some "admin" |}
                 ["admin/olwidget_change_list.html"]
                 (<["map" := CInfoMap place_map]> (
                  <["media" := CMedia ["admin/js/core.js";
                                       "olwidget/js/olwidget.js"]]>
                    (context_of [place; unset] (GET_request [])))),
               after)
  /\ context_of [place; unset] (GET_request []) !! "map" = None
  /\ context_of [place; unset] (GET_request []) !! "media"
     = Some (CMedia ["admin/js/core.js"])
  /\ context_of [place; unset] (GET_request []) !! "cl"
     = Some (CChangeList (change_list [place; unset])).
Proof.
  assert (prelude (site [place; unset]) (GET_request []) start
          = Return (inr (change_list [place; unset]), start)) as Hpre
    by reflexivity.
  split; [exact Hpre|].
  destruct (changelist_view_map_context reproject ogr_error DEFAULT_PROJ
              media_add InfoMap_media InfoMap_bool ERROR_FLAG
              ACTION_CHECKBOX_NAME gettext ungettext format
              (site [place; unset]) (GET_request []) None start
              (change_list [place; unset]) start Hpre)
    as [_ Hmap].
  assert (run_get_changelist_map reproject ogr_error DEFAULT_PROJ
            (site [place; unset]) (change_list [place; unset]) None start
          = Return (Some place_map, after)) as Hrun by reflexivity.
  rewrite Hrun in Hmap. cbv beta iota zeta delta [InfoMap_bool] in Hmap.
  match type of Hmap with
  | match ?media with _ => _ end =>
      assert (media = Some (CMedia ["admin/js/core.js"])) as Hmedia
        by reflexivity;
      rewrite Hmedia in Hmap
  end.
  destruct Hmap as (Hview & _).
  split; [exact Hview|]. repeat split.
Defined.


(** C5: the view against the parent's at two requests that the parent
    answers with the change list.  For an object with a geometry whose
    listed method returns [None], this view raises [AttributeError] from
    [get_changelist_map], which tests the truthiness of the attribute
    before it calls it.  And for a change list whose [get_queryset] takes
    the request, as the view's own calls of it do, this view raises
    [TypeError]: it calls [get_changelist_map] without the request, which
    then calls [get_queryset] with no argument. *)
Lemma changelist_view_raises_where_parent_renders :
  (parent_view (site [half]) (GET_request []) None start
   = Return (changelist_response (site [half]) (GET_request [])
               (context_of [half] (GET_request [])), start)
   /\ view (site [half]) (GET_request []) None start = Raise AttributeError)
  /\ get_queryset (requiring_request [place]) (Some (GET_request []))
     = Return [place]
  /\ parent_view (django_site [place]) (GET_request []) None start
     = Return (changelist_response (django_site [place]) (GET_request [])
                 (changelist_context media_add gettext ungettext format
                    (django_site [place]) (GET_request [])
                    (requiring_request [place]) None), start)
  /\ view (django_site [place]) (GET_request []) None start
     = Raise TypeError.
Proof. repeat split. Qed.

Lemma get_form_patches_witness :
  exists cls,
    form_of (site []) tt = Return cls
    /\ initial_data_keymap cls = Some [("geom", "geom_map")]
    /\ instantiate cls [("name", "Here"); ("geom", "POINT (1 2)")]
       = Return {| initial := [("name", "Here"); ("geom_map", "POINT (1 2)")];
                   cleaned_data := None;
                   self_initial_data_keymap := Some [("geom", "geom_map")];
                   form_state := tt |}.
Proof.
  destruct (get_form_patches apply_maps_to_modelform_fields fix_initial_data
              fix_cleaned_data (site []) tt generated_form ["name"; "geom"]
              [("geom", "geom_map")] eq_refl eq_refl)
    as (cls & Hget & Hkeymap & _ & _ & _ & Hnew).
  exists cls. split; [exact Hget|]. split; [exact Hkeymap|].
  rewrite (Hnew [("name", "Here"); ("geom", "POINT (1 2)")]
             {| initial := [("name", "Here"); ("geom", "POINT (1 2)")];
                cleaned_data := None;
                self_initial_data_keymap := Some [("geom", "geom_map")];
                form_state := tt |} eq_refl eq_refl).
  reflexivity.
Defined.

Lemma patched_clean_returns_cleaned_data_witness :
  form_of (site []) tt = Return patched_form
  /\ snd <$> form_clean generated_form bound_form = Return None
  /\ form_clean patched_form bound_form
     = Return (set_cleaned_data bound_form [("geom", "POINT (1 2)")],
               Some [("geom", "POINT (1 2)")]).
Proof.
  assert (form_of (site []) tt = Return patched_form) as Hget
    by reflexivity.
  split; [exact Hget|]. split; [reflexivity|].
  destruct (patched_clean_returns_cleaned_data apply_maps_to_modelform_fields
              fix_initial_data fix_cleaned_data (site []) tt generated_form
              patched_form bound_form eq_refl Hget) as (Hclean & _ & _).
  rewrite Hclean. reflexivity.
Defined.

Lemma get_changelist_map_in_place_witness :
  get_changelist_map reproject ogr_error DEFAULT_PROJ (site [place; unset])
    (change_list [place; unset]) None store
  = Return (Some place_map, geoms after)
  /\ exists fs qs addrss,
       list_map (site [place; unset]) = Some fs
       /\ get_queryset (change_list [place; unset]) None = Return qs
       /\ Forall2 (fun obj addrs =>
                     collect_geoms store obj fs [] = Return (VGeom <$> addrs))
                  qs addrss
       /\ reprojects reproject ogr_error DEFAULT_PROJ (concat addrss) store
            (geoms after).
Proof.
  assert (get_changelist_map reproject ogr_error DEFAULT_PROJ (site [place; unset])
            (change_list [place; unset]) None store
          = Return (Some place_map, geoms after)) as Hrun by reflexivity.
  split; [exact Hrun|].
  exact (get_changelist_map_in_place reproject ogr_error DEFAULT_PROJ
           (site [place; unset]) (change_list [place; unset]) None store
           place_map (geoms after) Hrun).
Defined.

Lemma get_changelist_map_labels_witness :
  fst <$> get_changelist_map reproject ogr_error DEFAULT_PROJ
            (site [unset; place; unset]) (change_list [unset; place; unset])
            None store
  = Return (Some place_map)
  /\ exists fs qs,
       list_map (site [unset; place; unset]) = Some fs
       /\ get_queryset (change_list [unset; place; unset]) None = Return qs
       /\ snd <$> info place_map
          = label_of (change_list [unset; place; unset])
              <$> List.filter (has_geometry store fs) qs.
Proof.
  split; [reflexivity|].
  apply (get_changelist_map_labels reproject ogr_error DEFAULT_PROJ
           (site [unset; place; unset]) (change_list [unset; place; unset])
           None store place_map).
  reflexivity.
Defined.


Lemma changelist_view_permission_denied_witness :
  has_change_permission (desk false [] [place]) (GET_request []) = false
  /\ view (desk false [] [place]) (GET_request []) None start
     = Raise PermissionDenied
  /\ parent_view (desk false [] [place]) (GET_request []) None start
     = Raise PermissionDenied.
Proof.
  split; [reflexivity|].
  apply (changelist_view_permission_denied reproject ogr_error DEFAULT_PROJ media_add
           InfoMap_media InfoMap_bool ERROR_FLAG ACTION_CHECKBOX_NAME gettext
           ungettext format (desk false [] [place]) (GET_request []) None
           start).
  reflexivity.
Defined.

Lemma changelist_view_not_POST_witness :
  is_POST (GET_request []) = false
  /\ prelude (desk true [] [place]) (GET_request []) start
     = Return (inr (set_formset (editable_list [place])
                      (Some (formset_of [] None [place]))), start).
Proof.
  split; [reflexivity|].
  destruct (changelist_view_not_POST reproject ogr_error DEFAULT_PROJ media_add
              InfoMap_media InfoMap_bool ERROR_FLAG ACTION_CHECKBOX_NAME
              gettext ungettext format (desk true [] [place]) (GET_request [])
              None start (editable_list [place]) start eq_refl eq_refl
              eq_refl) as [Hpre _].
  exact Hpre.
Defined.

Lemma save_changed_forms_count_witness :
  save_changed_forms (desk true [] []) (POST_request []) three_forms 0%nat
    None start
  = Return ((2%nat, Some place), saved_twice)
  /\ 2%nat = (0 + length (List.filter has_changed three_forms))%nat.
Proof.
  assert (save_changed_forms (desk true [] []) (POST_request []) three_forms
            0%nat None start
          = Return ((2%nat, Some place), saved_twice)) as Hrun
    by reflexivity.
  split; [exact Hrun|].
  destruct (save_changed_forms_count (desk true [] []) (POST_request [])
              three_forms 0%nat None start) as [Hcount _].
  exact (Hcount 2%nat (Some place) saved_twice Hrun).
Defined.

Lemma changelist_view_bulk_edit_witness :
  is_valid (formset_of [false; false]
              (Some (POST (POST_request [("_save", ["Save"])]), []))
              [place; unset]) = true
  /\ view (desk true [false; false] [place; unset])
       (POST_request [("_save", ["Save"])]) None start
     = Return (HttpResponseRedirect "/admin/places/place/?o=1", start).
Proof.
  split; [reflexivity|].
  destruct (changelist_view_bulk_edit reproject ogr_error DEFAULT_PROJ media_add
              InfoMap_media InfoMap_bool ERROR_FLAG ACTION_CHECKBOX_NAME
              gettext ungettext format (desk true [false; false] [place; unset])
              (POST_request [("_save", ["Save"])]) None start
              (editable_list [place; unset]) start eq_refl eq_refl eq_refl
              eq_refl eq_refl eq_refl) as (_ & _ & Hquiet).
  exact (Hquiet eq_refl).
Defined.

Lemma bulk_edit_ignores_action_failed_witness :
  actions_no_confirmation ACTION_CHECKBOX_NAME gettext (desk true [] [place])
    (POST_request [("index", ["0"])]) (editable_list [place]) false start
  = Return (inr true, warned)
  /\ bulk_edit ungettext format (desk true [] [place])
       (POST_request [("index", ["0"])]) (editable_list [place]) true warned
     = bulk_edit ungettext format (desk true [] [place])
         (POST_request [("index", ["0"])]) (editable_list [place]) false
         warned.
Proof.
  split; [reflexivity|].
  apply (bulk_edit_ignores_action_failed ACTION_CHECKBOX_NAME gettext ungettext
           format (desk true [] [place]) (POST_request [("index", ["0"])])
           (editable_list [place]) start true warned true warned);
    reflexivity.
Defined.

Lemma changelist_context_precedence_witness :
  each_context (desk true [] [place]) (GET_request []) !! "title"
  = Some (CStr "Site")
  /\ changelist_context media_add gettext ungettext format
       (desk true [] [place]) (GET_request []) (editable_list [place]) None
       !! "title"
     = Some (CStr "Select place to change")
  /\ changelist_context media_add gettext ungettext format
       (desk true [] [place]) (GET_request []) (editable_list [place])
       (Some {[ "title" := CStr "My places" ]}) !! "title"
     = Some (CStr "My places")
  /\ changelist_context media_add gettext ungettext format
       (desk true [] [place]) (GET_request []) (editable_list [place]) None
       !! "site_title"
     = Some (CStr "Django site admin").
Proof.
  split; [reflexivity|]. split; [|split].
  - pose proof (changelist_context_precedence media_add gettext ungettext
                  format (desk true [] [place]) (GET_request [])
                  (editable_list [place]) None "title") as H.
    cbv zeta in H. destruct H as (_ & _ & H).
    etrans; [exact H|]. reflexivity.
  - pose proof (changelist_context_precedence media_add gettext ungettext
                  format (desk true [] [place]) (GET_request [])
                  (editable_list [place])
                  (Some {[ "title" := CStr "My places" ]}) "title") as H.
    cbv zeta in H. destruct H as (_ & _ & H).
    etrans; [exact H|]. reflexivity.
  - pose proof (changelist_context_precedence media_add gettext ungettext
                  format (desk true [] [place]) (GET_request [])
                  (editable_list [place]) None "site_title") as H.
    cbv zeta in H. destruct H as (_ & _ & H).
    etrans; [exact H|]. reflexivity.
Defined.

Lemma changelist_view_action_response_witness :
  nonempty (getlist ACTION_CHECKBOX_NAME
              (POST (POST_request [("_selected_action", ["1"; "2"])]))) = true
  /\ view (desk_with (Some (PlainResponse "Are you sure?")) true []
             [place; unset])
       (POST_request [("_selected_action", ["1"; "2"])]) None start
     = Return (PlainResponse "Are you sure?", acted)
  /\ parent_view (desk_with (Some (PlainResponse "Are you sure?")) true []
                    [place; unset])
       (POST_request [("_selected_action", ["1"; "2"])]) None start
     = Return (PlainResponse "Are you sure?", acted).
Proof.
  split; [reflexivity|].
  apply (changelist_view_action_response reproject ogr_error DEFAULT_PROJ media_add
           InfoMap_media InfoMap_bool ERROR_FLAG ACTION_CHECKBOX_NAME gettext
           ungettext format
           (desk_with (Some (PlainResponse "Are you sure?")) true []
              [place; unset])
           (POST_request [("_selected_action", ["1"; "2"])]) None start
           (editable_list [place; unset]) start [place; unset]
           (PlainResponse "Are you sure?") acted);
    reflexivity.
Defined.

End Places.
